(** * pkg/build/linux.go: kernel build, image assembly and root-cause extraction

    A shallow embedding of [Build], [Clean], [CreateImage] and
    [extractRootCause] of [pkg/build/linux.go], and the properties of the
    build specification that concern them.

    - Go [[]byte] is [list byte], Go [string] is [string].
    - The Go [error] interface is the inductive [error]; a
      [*osutil.VerboseError] is an address into a heap of records, because
      [extractRootCause] assigns a field through the pointer it is given.
    - Calls that leave the package for the operating system ([osutil], [os],
      [io/ioutil], [runtime]) are the nodes of a program tree [Prog]; [run]
      executes a tree against an arbitrary handler and records the calls. *)

From Stdlib Require Import ZArith Strings.Ascii Strings.String Strings.Byte.
From Stdlib Require Import Lists.List Bool DecimalString.
From stdpp Require Import gmap strings.
Import ListNotations.

Open Scope string_scope.
Open Scope list_scope.

(** ** Byte slices: the functions of package [bytes] the extractor uses *)

Module bytes.

(** [b] starts with [prefix] *)
Fixpoint HasPrefix (b prefix : list byte) : bool :=
  match prefix, b with
  | [], _ => true
  | _ :: _, [] => false
  | p :: prefix', c :: b' => Byte.eqb c p && HasPrefix b' prefix'
  end.

(** [bytes.Contains(b, subslice)]: [subslice] occurs within [b] *)
Fixpoint Contains (b subslice : list byte) : bool :=
  HasPrefix b subslice ||
  match b with
  | [] => false
  | _ :: b' => Contains b' subslice
  end.

(** [bytes.Split(s, []byte{sep})]: the pieces of [s] between the
    occurrences of the one-byte separator; [n] separators give [n+1]
    pieces, and an empty [s] gives one empty piece. *)
Fixpoint Split (s : list byte) (sep : byte) : list (list byte) :=
  match s with
  | [] => [[]]
  | c :: s' =>
      if Byte.eqb c sep then [] :: Split s' sep
      else match Split s' sep with
           | piece :: pieces => (c :: piece) :: pieces
           | [] => [[c]]
           end
  end.

End bytes.

(** [[]byte("...")] and [string(b)] *)
Definition bytes_of (s : string) : list byte := list_byte_of_string s.
Definition string_of (b : list byte) : string := string_of_list_byte b.

(** ** The diagnostic table (linux.go:139-150) *)

Record buildFailureCause : Type := mkCause {
  pattern : list byte;
  weak : bool
}.

Definition buildFailureCauses : list buildFailureCause :=
  [ {| pattern := bytes_of ": error: ";               weak := false |};
    {| pattern := bytes_of ": fatal error: ";         weak := false |};
    {| pattern := bytes_of ": undefined reference to"; weak := false |};
    {| pattern := bytes_of ": final link failed: ";   weak := true |};
    {| pattern := bytes_of "collect2: error: ";       weak := true |} ].

(** ** The scan (linux.go:121-132)

    [cause] is [var cause []byte]: [None] is the nil slice.  A line is only
    ever assigned to [cause] after [bytes.Contains] found a pattern in it, and
    no pattern of the table is empty, so an assigned [cause] is never nil. *)

(** [cause != nil] *)
Definition notNil (cause : option (list byte)) : bool :=
  match cause with
  | Some _ => true
  | None => false
  end.

(** The inner loop over the table for one line.  [continue] moves to the next
    entry, [break] leaves the loop with the line as the candidate. *)
Fixpoint scanPatterns (line : list byte) (patterns : list buildFailureCause)
    (cause : option (list byte)) : option (list byte) :=
  match patterns with
  | [] => cause
  | p :: rest =>
      if weak p && notNil cause then scanPatterns line rest cause
      else if bytes.Contains line (pattern p) then Some line
      else scanPatterns line rest cause
  end.

(** The outer loop over the lines, in their order. *)
Fixpoint scanLines (lines : list (list byte)) (cause : option (list byte))
    : option (list byte) :=
  match lines with
  | [] => cause
  | line :: rest => scanLines rest (scanPatterns line buildFailureCauses cause)
  end.

(** The extractor as the specification names it: from captured output to the
    selected line, if any (linux.go:121-132, from [var cause] to the end of
    the loops). *)
Definition extract (output : list byte) : option (list byte) :=
  scanLines (bytes.Split output "010"%byte) None.

(** ** Errors and the heap of verbose errors *)

(** Modelled from the spec: the declaration of [osutil.VerboseError] is in
    package [osutil], not among the sources.  The failure record of the
    specification (section 3) carries a title and the full captured output;
    [linux.go] reads the field [Output] and assigns the field [Title]. *)
Record VerboseError : Type := mkVerboseError {
  Title : string;
  Output : list byte
}.

(** A value of the Go interface [error]: nil, a pointer to a verbose error, an
    error of some other dynamic type coming from the operating system
    (identified by its text), or the fresh error [fmt.Errorf(format, args...)]
    returns, kept as the call that made it. *)
#[warnings="-register-all"]
Inductive error : Type :=
| ErrNil
| VerboseErrorPtr (p : positive)
| OtherError (msg : string)
| fmt_Errorf (format : string) (args : list error).

(** [err != nil] *)
Definition isErr (err : error) : bool :=
  match err with
  | ErrNil => false
  | _ => true
  end.

(** The objects [*osutil.VerboseError] pointers point to.  An address with no
    object stands for the nil pointer: dereferencing it panics. *)
Abbreviation heap := (gmap positive VerboseError).

(** linux.go:116-137.  [None] is the panic of [verr.Output] on a nil [verr];
    otherwise the returned error and the heap after the call. *)
Definition extractRootCause (err : error) (h : heap) : option (error * heap) :=
  match err with
  | VerboseErrorPtr p =>
      match h !! p with
      | None => None
      | Some verr =>
          match extract (Output verr) with
          | Some cause =>
              Some (VerboseErrorPtr p,
                    <[p := {| Title := string_of cause; Output := Output verr |}]> h)
          | None => Some (VerboseErrorPtr p, h)
          end
      end
  | _ => Some (err, h)
  end.

(** ** Durations, commands and the platform *)

(** [time.Duration] counts nanoseconds in an [int64]. *)
Module time.
#[local] Open Scope Z_scope.
Definition Duration : Type := Z.
Definition Nanosecond : Duration := 1.
Definition Microsecond : Duration := 1000 * Nanosecond.
Definition Millisecond : Duration := 1000 * Microsecond.
Definition Second : Duration := 1000 * Millisecond.
Definition Minute : Duration := 60 * Second.
Definition Hour : Duration := 60 * Minute.
Definition maxDuration : Duration := 2 ^ 63 - 1.
End time.

(** Modelled from the spec: [osutil.Command] and the command it returns are
    not among the sources.  The command of the specification (section 3) is a
    program, its arguments, a working directory and an environment; the
    pipelines assign [Dir] and [Env].  [Args] holds the program name followed
    by the positional arguments, as [exec.Command] fills it.  What
    [osutil.Sandbox] records in the command (its process attributes) is left
    to the handler of that call. *)
Record Cmd : Type := mkCmd {
  Path : string;
  Args : list string;
  Dir : string;
  Env : list string
}.

(** Modelled from the spec: [osutil.Command(bin, args...)], not among the
    sources, makes the command of a program and its arguments; the working
    directory and the environment are left unset. *)
Definition osutil_Command (bin : string) (args : list string) : Cmd :=
  {| Path := bin; Args := bin :: args; Dir := ""; Env := [] |}.

(** [cmd.Dir = dir] and [cmd.Env = env] *)
Definition set_Dir (dir : string) (cmd : Cmd) : Cmd :=
  {| Path := Path cmd; Args := Args cmd; Dir := dir; Env := Env cmd |}.
Definition set_Env (env : list string) (cmd : Cmd) : Cmd :=
  {| Path := Path cmd; Args := Args cmd; Dir := Dir cmd; Env := env |}.

(** [strconv.Itoa] *)
Definition strconv_Itoa (n : Z) : string := NilZero.string_of_int (Z.to_int n).

(** What the file takes from outside itself and does not depend on the state
    of the machine: the path functions of [path/filepath], the working
    directory [osutil] remembers, and the constant [createImageScript] of the
    generated file [linux_generated.go]. *)
Class Platform : Type := {
  filepath_Join : list string -> string;
  filepath_FromSlash : string -> string;
  filepath_IsAbs : string -> bool;
  osutil_wd : string;
  createImageScript : string
}.

(** Modelled from the spec: [osutil.Abs] is not among the sources.  The
    specification (section 4.4) has it return the "resolved absolute path" of
    the file it is given and the "empty string when not provided"; a relative
    path is resolved against the working directory. *)
Definition osutil_Abs `{Platform} (path : string) : string :=
  if (path =? "")%string then ""
  else if filepath_IsAbs path then path
  else filepath_Join [osutil_wd; path].

(** ** Programs over operating-system calls *)

(** The calls that leave the package, each indexed by the type of what it
    returns. *)
Inductive Call : Type -> Type :=
| osutil_WriteFile (filename : string) (data : list byte) : Call error
| osutil_WriteExecFile (filename : string) (data : list byte) : Call error
| osutil_CopyFile (oldFile newFile : string) : Call error
| osutil_SandboxChown (file : string) : Call error
| osutil_Sandbox (cmd : Cmd) (user net : bool) : Call error
| osutil_Run (timeout : time.Duration) (cmd : Cmd) : Call (list byte * error)
| runtime_NumCPU : Call Z
| ioutil_TempDir (dir prefix : string) : Call (string * error)
| os_RemoveAll (path : string) : Call error
| os_Environ : Call (list string)
| os_Chmod (name : string) (mode : Z) : Call error.

(** A program: it returns, or makes a call and goes on with the answer, or
    works on the heap of verbose errors ([None]: it panics). *)
Inductive Prog (R : Type) : Type :=
| Ret (r : R)
| Sys {A : Type} (c : Call A) (k : A -> Prog R)
| Mem {A : Type} (f : heap -> option (A * heap)) (k : A -> Prog R).

Arguments Ret {R} r.
Arguments Sys {R A} c k.
Arguments Mem {R A} f k.

Fixpoint bind {R S : Type} (p : Prog R) (f : R -> Prog S) : Prog S :=
  match p with
  | Ret r => f r
  | Sys c k => Sys c (fun a => bind (k a) f)
  | Mem g k => Mem g (fun a => bind (k a) f)
  end.

#[export] Instance Prog_ret : MRet Prog := @Ret.
#[export] Instance Prog_bind : MBind Prog := fun _ _ f p => bind p f.

Definition call {A : Type} (c : Call A) : Prog A := Sys c Ret.
Definition withHeap {A : Type} (f : heap -> option (A * heap)) : Prog A := Mem f Ret.

(** [defer d] at the head of [body]: [d] runs when [body] returns, whatever
    it returns, and what [d] returns is dropped. *)
Definition defer {A R : Type} (d : Prog A) (body : Prog R) : Prog R :=
  r ← body; _ ← d; mret r.

(** The octal literal [0600] *)
Definition mode_0600 : Z := 6 * 8 ^ 2.

(** A program that never touches the heap of verbose errors. *)
Fixpoint calls_only {R : Type} (p : Prog R) : Prop :=
  match p with
  | Ret _ => True
  | Sys _ k => forall a, calls_only (k a)
  | Mem _ _ => False
  end.

(** ** The pipelines *)

Section Pipelines.
Context `{Platform}.

(** linux.go:25-56 *)
Definition Build (dir compiler : string) (config : list byte) : Prog error :=
  let configFile := filepath_Join [dir; ".config"] in
  err ← call (osutil_WriteFile configFile config);
  if isErr err then mret (fmt_Errorf "failed to write config file: %v" [err]) else
  err ← call (osutil_SandboxChown configFile);
  if isErr err then mret err else
  let cmd := osutil_Command "make" ["oldconfig"; ("CC=" ++ compiler)%string] in
  err ← call (osutil_Sandbox cmd true true);
  if isErr err then mret err else
  let cmd := set_Dir dir cmd in
  '(_, err) ← call (osutil_Run (10 * time.Minute)%Z cmd);
  if isErr err then mret err else
  n ← call runtime_NumCPU;
  let cpu := strconv_Itoa n in
  let cmd := osutil_Command "make" ["bzImage"; "-j"; cpu; ("CC=" ++ compiler)%string] in
  err ← call (osutil_Sandbox cmd true true);
  if isErr err then mret err else
  let cmd := set_Dir dir cmd in
  '(_, err) ← call (osutil_Run (3 * time.Hour)%Z cmd);
  if isErr err then withHeap (extractRootCause err) else
  mret ErrNil.

(** linux.go:58-67 *)
Definition Clean (dir : string) : Prog error :=
  n ← call runtime_NumCPU;
  let cpu := strconv_Itoa n in
  let cmd := osutil_Command "make" ["distclean"; "-j"; cpu] in
  err ← call (osutil_Sandbox cmd true true);
  if isErr err then mret err else
  let cmd := set_Dir dir cmd in
  '(_, err) ← call (osutil_Run (10 * time.Minute)%Z cmd);
  mret err.

(** linux.go:74-114 *)
Definition CreateImage (targetOS targetArch vmType kernelDir userspaceDir
    cmdlineFile sysctlFile image sshkey : string) : Prog error :=
  if negb (targetOS =? "linux")%string || negb (targetArch =? "amd64")%string then
    mret (fmt_Errorf "only linux/amd64 is supported" [])
  else if negb (vmType =? "qemu")%string && negb (vmType =? "gce")%string then
    mret (fmt_Errorf "images can be built only for qemu/gce machines" [])
  else
  '(tempDir, err) ← call (ioutil_TempDir "" "syz-build");
  if isErr err then mret err else
  defer (call (os_RemoveAll tempDir)) (
    let scriptFile := filepath_Join [tempDir; "create.sh"] in
    err ← call (osutil_WriteExecFile scriptFile (bytes_of createImageScript));
    if isErr err then mret (fmt_Errorf "failed to write script file: %v" [err]) else
    let bzImage :=
      filepath_Join [kernelDir; filepath_FromSlash "arch/x86/boot/bzImage"] in
    let cmd := osutil_Command scriptFile [userspaceDir; bzImage] in
    let cmd := set_Dir tempDir cmd in
    environ ← call os_Environ;
    let cmd := set_Env ([] ++ environ) cmd in
    let cmd := set_Env (Env cmd ++
                 [ ("SYZ_VM_TYPE=" ++ vmType)%string;
                   ("SYZ_CMDLINE_FILE=" ++ osutil_Abs cmdlineFile)%string;
                   ("SYZ_SYSCTL_FILE=" ++ osutil_Abs sysctlFile)%string ]) cmd in
    '(_, err) ← call (osutil_Run time.Hour cmd);
    if isErr err then mret (fmt_Errorf "image build failed: %v" [err]) else
    err ← call (osutil_CopyFile (filepath_Join [tempDir; "disk.raw"]) image);
    if isErr err then mret err else
    err ← call (osutil_CopyFile (filepath_Join [tempDir; "key"]) sshkey);
    if isErr err then mret err else
    err ← call (os_Chmod sshkey mode_0600);
    if isErr err then mret err else
    mret ErrNil).

End Pipelines.

(** ** Running a program

    The machine a program runs on: the heap of verbose errors and the rest of
    the world [W].  A handler answers each call and moves the machine on; the
    theorems hold for every handler. *)

Section Run.
Context {W : Type}.

Definition Handler : Type := forall A : Type, Call A -> heap * W -> A * (heap * W).

(** One call as it happened: the call, its answer, the machine after it. *)
Inductive Event : Type :=
| Ev {A : Type} (c : Call A) (a : A) (after : heap * W).

Inductive Outcome (R : Type) : Type :=
| Returned (r : R) (final : heap * W)
| Panicked.
Arguments Returned {R} r final.
Arguments Panicked {R}.

(** A heap action on a machine, as [run] performs it. *)
Definition onHeap {R : Type} (f : heap -> option (R * heap)) (m : heap * W)
    : Outcome R :=
  match f m.1 with
  | Some (r, h') => Returned r (h', m.2)
  | None => Panicked
  end.

Fixpoint run (hd : Handler) {R : Type} (p : Prog R) (m : heap * W)
    : list Event * Outcome R :=
  match p with
  | Ret r => ([], Returned r m)
  | Sys c k =>
      let '(a, m') := hd _ c m in
      let '(tr, o) := run hd (k a) m' in
      (Ev c a m' :: tr, o)
  | Mem f k =>
      match f m.1 with
      | Some (a, h') => run hd (k a) (h', m.2)
      | None => ([], Panicked)
      end
  end.


(** *** Reading a trace *)

(** The error a call answered with; the calls that return no error count
    as answering nil. *)
Definition ev_error (e : Event) : error :=
  match e with
  | Ev c a _ =>
      match c in Call A return A -> error with
      | osutil_Run _ _ => fun a => a.2
      | ioutil_TempDir _ _ => fun a => a.2
      | runtime_NumCPU => fun _ => ErrNil
      | os_Environ => fun _ => ErrNil
      | _ => fun a => a
      end a
  end.

Definition ev_after (e : Event) : heap * W :=
  match e with
  | Ev _ _ m => m
  end.

(** The process a call ran, with the timeout it was given. *)
Definition run_of (e : Event) : option (time.Duration * Cmd) :=
  match e with
  | Ev (osutil_Run t cmd) _ _ => Some (t, cmd)
  | _ => None
  end.

Definition runs (tr : list Event) : list (time.Duration * Cmd) := omap run_of tr.

Definition is_WriteFile (e : Event) : bool :=
  match e with
  | Ev (osutil_WriteFile _ _) _ _ => true
  | _ => false
  end.

Definition is_Sandbox (e : Event) : bool :=
  match e with
  | Ev (osutil_Sandbox _ _ _) _ _ => true
  | _ => false
  end.

(** The run of the compilation target: [make bzImage ...]. *)
Definition is_compile (e : Event) : bool :=
  match run_of e with
  | Some (_, cmd) =>
      match Args cmd with
      | _ :: target :: _ => (target =? "bzImage")%string
      | _ => false
      end
  | None => false
  end.

(** [osutil.Sandbox] succeeded on this very command before: same program
    and arguments (the pipelines set [Dir] between the two calls). *)
Definition sandboxed (seen : list Cmd) (cmd : Cmd) : bool :=
  existsb (fun c => bool_decide (Path c = Path cmd /\ Args c = Args cmd)) seen.

(** Every process of the trace was run sandboxed. *)
Fixpoint runs_sandboxed (seen : list Cmd) (tr : list Event) : bool :=
  match tr with
  | [] => true
  | e :: tr' =>
      match e with
      | Ev c a _ =>
          match c in Call A return A -> bool with
          | osutil_Sandbox cmd _ _ => fun err =>
              runs_sandboxed (if isErr err then seen else cmd :: seen) tr'
          | osutil_Run _ cmd => fun _ =>
              sandboxed seen cmd && runs_sandboxed seen tr'
          | _ => fun _ => runs_sandboxed seen tr'
          end a
      end
  end.

End Run.

Arguments Returned {W R} r final.
Arguments Panicked {W R}.

(** ** Lines and patterns *)

(** Some entry of the given strength occurs in the line. *)
Definition matchesAny (patterns : list buildFailureCause) (strength : bool)
    (line : list byte) : bool :=
  existsb (fun p => Bool.eqb (weak p) strength && bytes.Contains line (pattern p))
          patterns.

Definition strongLine (line : list byte) : bool := matchesAny buildFailureCauses false line.
Definition weakLine (line : list byte) : bool := matchesAny buildFailureCauses true line.

Definition newline : byte := "010"%byte.

(** The entry is tested against the line and found in it: it is not a weak
    entry skipped because a candidate exists, and the line contains it. *)
Definition fires (line : list byte) (cause : option (list byte))
    (p : buildFailureCause) : bool :=
  negb (weak p && notNil cause) && bytes.Contains line (pattern p).

(** The entry is tested at all: it is not a weak entry skipped because a
    candidate exists. *)
Definition tested (cause : option (list byte)) (p : buildFailureCause) : bool :=
  negb (weak p && notNil cause).

(** The inner loop once more (linux.go:123-131), returning beside the
    candidate the entries [bytes.Contains] was called with, in the order of
    the calls: [continue] at a skipped weak entry makes no call, [break] makes
    the call at hand the last one. *)
Fixpoint scanPatternsLog (line : list byte) (patterns : list buildFailureCause)
    (cause : option (list byte)) : option (list byte) * list buildFailureCause :=
  match patterns with
  | [] => (cause, [])
  | p :: rest =>
      if weak p && notNil cause then scanPatternsLog line rest cause
      else if bytes.Contains line (pattern p) then (Some line, [p])
      else let '(c, log) := scanPatternsLog line rest cause in (c, p :: log)
  end.

(** The table's reading of a weak entry, and the claim's: a line in which a
    weak entry occurs never replaces a candidate. *)
Definition weak_match_never_replaces : Prop :=
  forall line c,
    weakLine line = true ->
    scanPatterns line buildFailureCauses (Some c) = Some c.

(** The specification's reading of the scan: the first line with a strong
    match is the result, whatever follows it. *)
Definition first_strong_line_wins (output : list byte) : Prop :=
  forall pre line post,
    bytes.Split output newline = pre ++ line :: post ->
    Forall (fun l => strongLine l = false) pre ->
    strongLine line = true ->
    extract output = Some line.

(** ** A concrete machine

    A Unix platform and a handler that follows a script: the n-th call
    answers with the n-th error of the script (nil past its end), a run that
    answers with a verbose error allocates it with the given output. *)

Module Demo.

(** A Unix path is absolute when it starts with a slash. *)
Definition rooted (p : string) : bool :=
  match p with
  | String c _ => Ascii.eqb c "/"%char
  | EmptyString => false
  end.

Definition unix : Platform := {|
  filepath_Join := String.concat "/";
  filepath_FromSlash := fun p => p;
  filepath_IsAbs := rooted;
  osutil_wd := "/syzkaller";
  createImageScript := "#!/bin/bash
set -eux
"
|}.

Definition scripted (script : list error) (output : list byte) : @Handler nat :=
  fun A c m =>
    let err := nth m.2 script ErrNil in
    let h' :=
      match c, err with
      | osutil_Run _ _, VerboseErrorPtr p =>
          <[p := {| Title := "failed to run make"; Output := output |}]> m.1
      | _, _ => m.1
      end in
    (match c in Call A return A with
     | osutil_Run _ _ => (output, err)
     | ioutil_TempDir _ _ => ("/tmp/syz-build042", err)
     | runtime_NumCPU => 4%Z
     | os_Environ => ["PATH=/usr/bin"; "HOME=/root"]
     | _ => err
     end, (h', S m.2)).

Definition boot : heap * nat := (∅, 0).

(** Text to bytes, one line per element. *)
Definition text (lines : list string) : list byte :=
  bytes_of (String.concat (String (Ascii.ascii_of_nat 10) "") lines).

(** A heap with the verbose error of a failed compilation, before and after
    its title is replaced. *)
Definition failed : heap :=
  {[ 7%positive := {| Title := "failed to run make";
                      Output := text ["CC a.o"; "a.c:1: error: x"] |} ]}.
Definition titled : heap :=
  <[ 7%positive := {| Title := "a.c:1: error: x";
                      Output := text ["CC a.o"; "a.c:1: error: x"] |} ]> failed.

End Demo.

(** ** Further readings of outputs and traces *)

(** [bytes.Join(pieces, []byte{sep})], the inverse of [bytes.Split]. *)
Fixpoint bytes_Join (pieces : list (list byte)) (sep : byte) : list byte :=
  match pieces with
  | [] => []
  | [piece] => piece
  | piece :: rest => piece ++ sep :: bytes_Join rest sep
  end.

(** A call, whatever it answers. *)
Inductive Action : Type :=
| Act {A : Type} (c : Call A).

Section Reading.
Context {W : Type}.

Definition action (e : @Event W) : Action :=
  match e with
  | Ev c _ _ => Act c
  end.

Definition is_RemoveAll (e : @Event W) : bool :=
  match e with
  | Ev (os_RemoveAll _) _ _ => true
  | _ => false
  end.

Definition is_WriteExecFile (e : @Event W) : bool :=
  match e with
  | Ev (osutil_WriteExecFile _ _) _ _ => true
  | _ => false
  end.

Definition is_Run (e : @Event W) : bool :=
  match e with
  | Ev (osutil_Run _ _) _ _ => true
  | _ => false
  end.

(** The call answered nil. *)
Definition quiet (e : @Event W) : Prop := isErr (ev_error e) = false.

(** The calls of a trace before the deferred removal. *)
Definition body_of (tr : list (@Event W)) : list (@Event W) :=
  List.filter (fun e => negb (is_RemoveAll e)) tr.

(** What [CreateImage] returns for the call it stopped at
    (linux.go:83-113): two failures are wrapped, the others come back as they
    are. *)
Definition image_error (e : @Event W) : error :=
  if is_WriteExecFile e then fmt_Errorf "failed to write script file: %v" [ev_error e]
  else if is_Run e then fmt_Errorf "image build failed: %v" [ev_error e]
  else ev_error e.

End Reading.

(** ** Proof automation for programs under [run] *)

(** The next call of the program under [run]: name its answer. *)
Ltac answer hd :=
  match goal with
  | |- context [hd ?A ?c ?m] =>
      let a := fresh "a" in
      let m' := fresh "m" in
      destruct (hd A c m) as [a m'] eqn:?; cbn
  end.

(** The last element of a list written out. *)
Ltac last_of l :=
  lazymatch l with
  | [?x] => x
  | _ :: ?l' => last_of l'
  end.

Ltac split_last :=
  lazymatch goal with
  | |- exists pre e, ?l = pre ++ [e] /\ _ =>
      let x := last_of l in
      exists (removelast l), x; split; [reflexivity|]
  end.

(** Follow the program under [run]: name the answer of the next call and
    split on whether it is an error. *)
Ltac follow hd :=
  repeat (answer hd;
          repeat match goal with
                 | a : (_ * error)%type |- _ => destruct a; cbn
                 end;
          try match goal with
              | |- context [if isErr ?e then _ else _] =>
                  destruct (isErr e) eqn:?; cbn
              end).

(** An answer that is not an error is nil. *)
Ltac nil_answers :=
  repeat match goal with
         | Hb : isErr ?a = false |- _ =>
             is_var a; destruct a; try discriminate Hb; clear Hb
         end.

(** * Properties *)

(** ** The scan, line by line *)

Section Scan.
Implicit Types (line : list byte) (cause : option (list byte)).
Implicit Types (patterns : list buildFailureCause).

(** What the inner loop leaves in [cause], for any table. *)
Lemma scanPatterns_spec line patterns cause :
  scanPatterns line patterns cause =
    if matchesAny patterns false line then Some line
    else match cause with
         | Some c => Some c
         | None => if matchesAny patterns true line then Some line else None
         end.
Proof.
  induction patterns as [|[pat w] ps IH]; simpl.
  - by destruct cause.
  - rewrite IH.
    destruct w, cause, (bytes.Contains line pat); simpl; try reflexivity;
      by destruct (matchesAny ps false line).
Qed.

Lemma scanPatterns_strong line cause :
  strongLine line = true ->
  scanPatterns line buildFailureCauses cause = Some line.
Proof. intros Hs. rewrite scanPatterns_spec. fold (strongLine line). by rewrite Hs. Qed.

Lemma scanPatterns_keep line c :
  strongLine line = false ->
  scanPatterns line buildFailureCauses (Some c) = Some c.
Proof. intros Hs. rewrite scanPatterns_spec. fold (strongLine line). by rewrite Hs. Qed.

Lemma scanPatterns_fallback line :
  strongLine line = false ->
  scanPatterns line buildFailureCauses None = if weakLine line then Some line else None.
Proof. intros Hs. rewrite scanPatterns_spec. fold (strongLine line). by rewrite Hs. Qed.

(** Lines without a strong match leave a candidate alone. *)
Lemma scanLines_keep lines c :
  Forall (fun l => strongLine l = false) lines ->
  scanLines lines (Some c) = Some c.
Proof.
  induction 1 as [|l ls Hl _ IH]; cbn [scanLines]; [done|].
  by rewrite scanPatterns_keep.
Qed.

(** With no strong match anywhere the first weak line is selected. *)
Lemma scanLines_fallback lines :
  Forall (fun l => strongLine l = false) lines ->
  scanLines lines None = List.find weakLine lines.
Proof.
  induction 1 as [|l ls Hl Hls IH]; cbn [scanLines List.find]; [done|].
  rewrite scanPatterns_fallback by done.
  destruct (weakLine l); [by apply scanLines_keep | done].
Qed.

Lemma scanLines_app pre post cause :
  scanLines (pre ++ post) cause = scanLines post (scanLines pre cause).
Proof.
  revert cause. induction pre as [|l pre IH]; intros cause; cbn [scanLines app]; [done|].
  apply IH.
Qed.

(** The last line with a strong match is selected. *)
Lemma scanLines_last_strong pre line post cause :
  strongLine line = true ->
  Forall (fun l => strongLine l = false) post ->
  scanLines (pre ++ line :: post) cause = Some line.
Proof.
  intros Hs Hpost. rewrite scanLines_app. cbn [scanLines].
  rewrite scanPatterns_strong by done. by apply scanLines_keep.
Qed.

(** The candidate is always one of the lines scanned. *)
Lemma scanLines_strong_result lines cause :
  Exists (fun l => strongLine l = true) lines ->
  exists l, scanLines lines cause = Some l /\ In l lines /\ strongLine l = true.
Proof.
  revert cause. induction lines as [|l ls IH]; intros cause Hex.
  - by apply Exists_nil in Hex.
  - cbn [scanLines].
    assert (Hdec : forall x, {strongLine x = true} + {strongLine x <> true}).
    { intros x. destruct (strongLine x); [by left | by right]. }
    destruct (List.Exists_dec (fun l => strongLine l = true) ls Hdec) as [Hls|Hls].
    + destruct (IH (scanPatterns l buildFailureCauses cause) Hls) as (x & Hx & Hin & Hsx).
      exists x. split; [done|]. split; [by right | done].
    + apply Exists_cons in Hex as [Hl|Hl]; [|done].
      exists l. rewrite scanPatterns_strong by done.
      split; [|split; [by left | done]]. apply scanLines_keep.
      apply List.Forall_forall. intros x Hx.
      destruct (strongLine x) eqn:E; [|done].
      exfalso. apply Hls. apply List.Exists_exists. eauto.
Qed.

(** A line with no pattern of the table in it has neither kind of match. *)
Lemma no_pattern_no_match line strength :
  (forall p, In p buildFailureCauses -> bytes.Contains line (pattern p) = false) ->
  matchesAny buildFailureCauses strength line = false.
Proof.
  intros Hno. unfold matchesAny. apply not_true_is_false. intros Hex.
  apply existsb_exists in Hex as (p & Hp & Hm).
  apply andb_true_iff in Hm as [_ Hm]. rewrite (Hno p Hp) in Hm. discriminate.
Qed.

End Scan.

(** ** Substrings *)

Section Substrings.
Implicit Types (b x y : list byte).

Lemma HasPrefix_app_Contains x : forall b y,
  bytes.HasPrefix b (x ++ y) = true -> bytes.Contains b y = true.
Proof.
  induction x as [|c x IH]; intros b y Hp.
  - destruct b; cbn [app] in Hp; cbn [bytes.Contains]; by rewrite Hp.
  - destruct b as [|d b]; cbn [app bytes.HasPrefix] in Hp; [discriminate|].
    apply andb_true_iff in Hp as [_ Hp].
    cbn [bytes.Contains]. rewrite (IH _ _ Hp). apply orb_true_r.
Qed.

(** A slice that contains [x ++ y] contains [y]. *)
Lemma Contains_app_r b x y :
  bytes.Contains b (x ++ y) = true -> bytes.Contains b y = true.
Proof.
  induction b as [|c b IH]; cbn [bytes.Contains]; intros Hc.
  - rewrite orb_false_r in Hc. by apply HasPrefix_app_Contains in Hc.
  - apply orb_true_iff in Hc as [Hc|Hc].
    + by apply HasPrefix_app_Contains in Hc.
    + fold (bytes.Contains (c :: b) y).
      cbn [bytes.Contains]. rewrite (IH Hc). apply orb_true_r.
Qed.

End Substrings.

(** The last entry of the table is contained in the first: a line with
    "collect2: error: " in it has ": error: " in it, a strong match. *)
Lemma collect2_line_is_strong (line : list byte) :
  bytes.Contains line (bytes_of "collect2: error: ") = true ->
  strongLine line = true.
Proof.
  intros Hc.
  change (bytes_of "collect2: error: ")
    with (bytes_of "collect2" ++ bytes_of ": error: ") in Hc.
  apply Contains_app_r in Hc.
  unfold strongLine, matchesAny, buildFailureCauses.
  cbn [existsb weak pattern Bool.eqb andb]. by rewrite Hc.
Qed.

(** ** The extractor *)

(** C1 (amended): the last line, in original line order, that matches a
    strong pattern becomes the extracted title: a strong match sets the
    candidate whatever the candidate was before, and no later line without a
    strong match changes it.  For an output with two or more strong-pattern
    lines, [extract] returns the latest of them. *)
Theorem last_strong_line_wins (output : list byte) pre line post :
  bytes.Split output newline = pre ++ line :: post ->
  strongLine line = true ->
  Forall (fun l => strongLine l = false) post ->
  extract output = Some line
  /\ (forall cause, scanPatterns line buildFailureCauses cause = Some line)
  /\ (forall l, In l post -> scanPatterns l buildFailureCauses (Some line) = Some line).
Proof.
  intros Hsplit Hs Hpost. split; [|split].
  - unfold extract. fold newline. rewrite Hsplit. by apply scanLines_last_strong.
  - intros cause. by apply scanPatterns_strong.
  - intros l Hl. apply scanPatterns_keep.
    by apply (proj1 (List.Forall_forall _ _) Hpost).
Qed.

Lemma last_strong_line_wins_witness :
  extract (Demo.text ["a.c:1: error: x"; "b.c:2: error: y"; "ld: final link failed: z"])
    = Some (bytes_of "b.c:2: error: y").
Proof.
  refine (proj1 (last_strong_line_wins _ [bytes_of "a.c:1: error: x"]
                   (bytes_of "b.c:2: error: y")
                   [bytes_of "ld: final link failed: z"] _ _ _)).
  - reflexivity.
  - reflexivity.
  - repeat constructor.
Defined.

(** C1 as stated fails: with two compiler errors the first one is not the
    title, the second replaces it. *)
Lemma first_strong_line_overridden :
  ~ first_strong_line_wins (Demo.text ["a.c:1: error: x"; "b.c:2: error: y"]).
Proof.
  intros Hfirst.
  specialize (Hfirst [] (bytes_of "a.c:1: error: x") [bytes_of "b.c:2: error: y"]
                eq_refl (List.Forall_nil _) eq_refl).
  vm_compute in Hfirst. discriminate Hfirst.
Qed.

(** What does hold of the weak entries, for lines without a strong match.
    When some line has a strong match the result is a line with a strong
    match; with no strong match anywhere the result is the first line with a
    weak match; and a line whose match is only weak never replaces a
    candidate, at that line or at the end of the scan. *)
Theorem weak_patterns_only_fallback (output : list byte) :
  let lines := bytes.Split output newline in
  (Exists (fun l => strongLine l = true) lines ->
     exists l, extract output = Some l /\ In l lines /\ strongLine l = true)
  /\ (Forall (fun l => strongLine l = false) lines ->
     extract output = List.find weakLine lines)
  /\ (forall l c, strongLine l = false ->
     scanPatterns l buildFailureCauses (Some c) = Some c)
  /\ (forall pre post c, lines = pre ++ post ->
     scanLines pre None = Some c ->
     Forall (fun l => strongLine l = false) post ->
     extract output = Some c).
Proof.
  intros lines. repeat split.
  - intros Hex. by apply scanLines_strong_result.
  - intros Hall. by apply scanLines_fallback.
  - intros l c Hl. by apply scanPatterns_keep.
  - intros pre post c Hlines Hpre Hpost. unfold extract. fold newline. fold lines.
    rewrite Hlines, scanLines_app, Hpre. by apply scanLines_keep.
Qed.

Lemma weak_patterns_only_fallback_witness :
  extract (Demo.text ["LD vmlinux"; "ld: final link failed: bad value";
                      "ld: final link failed: again"])
    = Some (bytes_of "ld: final link failed: bad value").
Proof.
  destruct (weak_patterns_only_fallback
              (Demo.text ["LD vmlinux"; "ld: final link failed: bad value";
                          "ld: final link failed: again"])) as (_ & Hweak & _).
  rewrite Hweak; [vm_compute; reflexivity | vm_compute; repeat constructor].
Defined.

(** The example of the specification with the two weak entries: the
    "collect2: error: " line has a strong match, so it replaces the
    "final link failed" line. *)
Example final_link_then_collect2 :
  extract (Demo.text ["ld: final link failed: bad value";
                      "collect2: error: ld returned 1 exit status"])
    = Some (bytes_of "collect2: error: ld returned 1 exit status").
Proof. reflexivity. Qed.

(** C2 (a defect of the code): a weak match does replace a candidate when
    the weak entry is "collect2: error: ".  The table declares that entry
    weak, but every line that contains it contains the strong ": error: ",
    which is tested first.  On the output of a failed link, a "final link
    failed" line followed by the "collect2: error: " line, the first line is
    the candidate after one line, the second line has a weak match, and the
    scan returns the second line, not the first line with a weak match. *)
Theorem collect2_line_replaces_candidate :
  let first := bytes_of "ld: final link failed: bad value" in
  let second := bytes_of "collect2: error: ld returned 1 exit status" in
  let output := Demo.text ["ld: final link failed: bad value";
                           "collect2: error: ld returned 1 exit status"] in
  bytes.Split output newline = [first; second]
  /\ (weakLine first = true /\ strongLine first = false)
  /\ (weakLine second = true
      /\ bytes.Contains second (bytes_of "collect2: error: ") = true)
  /\ scanLines [first] None = Some first
  /\ scanPatterns second buildFailureCauses (Some first) = Some second
  /\ extract output = Some second
  /\ List.find weakLine (bytes.Split output newline) = Some first
  /\ ~ weak_match_never_replaces
  /\ (forall line cause,
        bytes.Contains line (bytes_of "collect2: error: ") = true ->
        scanPatterns line buildFailureCauses cause = Some line).
Proof.
  cbv zeta. repeat split; try (vm_compute; reflexivity).
  - intros Hnever.
    specialize (Hnever (bytes_of "collect2: error: ld returned 1 exit status")
                  (bytes_of "ld: final link failed: bad value") eq_refl).
    vm_compute in Hnever. discriminate Hnever.
  - intros line cause Hc. apply scanPatterns_strong. by apply collect2_line_is_strong.
Qed.

Section InnerLoop.
Implicit Types (line : list byte) (cause : option (list byte)).
Implicit Types (patterns before after : list buildFailureCause).

(** The candidate after the inner loop, by the first entry that fires. *)
Lemma scanPatterns_find line patterns cause :
  scanPatterns line patterns cause =
    match List.find (fires line cause) patterns with
    | Some _ => Some line
    | None => cause
    end.
Proof.
  induction patterns as [|p rest IH]; cbn [scanPatterns List.find]; [done|].
  unfold fires at 1.
  destruct (weak p && notNil cause); cbn [negb andb]; [exact IH|].
  by destruct (bytes.Contains line (pattern p)).
Qed.

Lemma scanPatternsLog_candidate line patterns cause :
  (scanPatternsLog line patterns cause).1 = scanPatterns line patterns cause.
Proof.
  induction patterns as [|p rest IH]; cbn [scanPatternsLog scanPatterns]; [done|].
  destruct (weak p && notNil cause); [exact IH|].
  destruct (bytes.Contains line (pattern p)); [done|].
  by destruct (scanPatternsLog line rest cause).
Qed.

(** No entry fires: every entry that is not skipped is tested. *)
Lemma scanPatternsLog_none line patterns cause :
  Forall (fun q => fires line cause q = false) patterns ->
  scanPatternsLog line patterns cause
    = (cause, List.filter (tested cause) patterns).
Proof.
  induction 1 as [|q qs Hq _ IH]; cbn [scanPatternsLog List.filter]; [done|].
  unfold fires in Hq. unfold tested at 1.
  destruct (weak q && notNil cause); cbn [negb andb] in Hq |- *; [exact IH|].
  by rewrite Hq, IH.
Qed.

(** An entry fires: the tests stop with it. *)
Lemma scanPatternsLog_first line before p after cause :
  Forall (fun q => fires line cause q = false) before ->
  fires line cause p = true ->
  scanPatternsLog line (before ++ p :: after) cause
    = (Some line, List.filter (tested cause) before ++ [p]).
Proof.
  intros Hbefore Hp.
  induction Hbefore as [|q qs Hq _ IH]; cbn [app scanPatternsLog List.filter].
  - unfold fires in Hp. apply andb_true_iff in Hp as [Hw Hc].
    apply negb_true_iff in Hw. by rewrite Hw, Hc.
  - unfold fires in Hq. unfold tested at 1.
    destruct (weak q && notNil cause); cbn [negb andb] in Hq |- *; [exact IH|].
    by rewrite Hq, IH.
Qed.

End InnerLoop.

(** C6: the table is the five entries in this order, three strong then two
    weak.  Within one line the entries are tested in table order, a weak
    entry being skipped while a candidate exists, and the first entry found
    in the line decides: the line becomes the candidate, that test is the
    last one, and no later entry is consulted.  When no entry is found, every
    entry that is not skipped is tested and the candidate stays as it was.
    The candidate is thus the line if some entry fires, the old candidate
    otherwise. *)
Theorem table_order_and_first_match :
  map (fun p => (string_of (pattern p), weak p)) buildFailureCauses =
    [ (": error: ", false); (": fatal error: ", false);
      (": undefined reference to", false);
      (": final link failed: ", true); ("collect2: error: ", true) ]
  /\ (forall line cause patterns,
        scanPatterns line patterns cause =
          match List.find (fires line cause) patterns with
          | Some _ => Some line
          | None => cause
          end)
  /\ (forall line cause patterns,
        (scanPatternsLog line patterns cause).1 = scanPatterns line patterns cause)
  /\ (forall line cause before p after,
        Forall (fun q => fires line cause q = false) before ->
        fires line cause p = true ->
        scanPatternsLog line (before ++ p :: after) cause
          = (Some line, List.filter (tested cause) before ++ [p]))
  /\ (forall line cause patterns,
        Forall (fun q => fires line cause q = false) patterns ->
        scanPatternsLog line patterns cause
          = (cause, List.filter (tested cause) patterns)).
Proof.
  split; [reflexivity|]. split; [|split; [|split]].
  - intros line cause patterns. apply scanPatterns_find.
  - intros line cause patterns. apply scanPatternsLog_candidate.
  - intros line cause before p after. apply scanPatternsLog_first.
  - intros line cause patterns. apply scanPatternsLog_none.
Qed.

Lemma table_order_and_first_match_witness :
  scanPatternsLog (bytes_of "a.c:3: fatal error: no such file") buildFailureCauses None
  = (Some (bytes_of "a.c:3: fatal error: no such file"),
     [ {| pattern := bytes_of ": error: "; weak := false |};
       {| pattern := bytes_of ": fatal error: "; weak := false |} ]).
Proof.
  destruct table_order_and_first_match as (_ & _ & _ & Hfirst & _).
  exact (Hfirst (bytes_of "a.c:3: fatal error: no such file") None
           [ {| pattern := bytes_of ": error: "; weak := false |} ]
           {| pattern := bytes_of ": fatal error: "; weak := false |}
           [ {| pattern := bytes_of ": undefined reference to"; weak := false |};
             {| pattern := bytes_of ": final link failed: "; weak := true |};
             {| pattern := bytes_of "collect2: error: "; weak := true |} ]
           ltac:(repeat constructor) eq_refl).
Defined.

(** C7: when no line of the output contains any of the five patterns the
    scan selects nothing, and [extractRootCause] returns the error it was
    given with nothing assigned: the title, like the rest of the heap, is as
    the caller had it. *)
Theorem no_match_no_title (output : list byte) :
  (forall l p, In l (bytes.Split output newline) -> In p buildFailureCauses ->
     bytes.Contains l (pattern p) = false) ->
  extract output = None
  /\ forall (h : heap) p verr,
      h !! p = Some verr -> Output verr = output ->
      extractRootCause (VerboseErrorPtr p) h = Some (VerboseErrorPtr p, h).
Proof.
  intros Hno.
  assert (Hnone : extract output = None).
  { unfold extract. fold newline.
    rewrite scanLines_fallback.
    - destruct (List.find weakLine (bytes.Split output newline)) as [l|] eqn:Hfind; [|done].
      apply List.find_some in Hfind as [Hin Hweak].
      unfold weakLine in Hweak. rewrite no_pattern_no_match in Hweak; [discriminate|].
      intros p Hp. by apply Hno.
    - apply List.Forall_forall. intros l Hl. apply no_pattern_no_match.
      intros p Hp. by apply Hno. }
  split; [exact Hnone|].
  intros h p verr Hp Hout. unfold extractRootCause. by rewrite Hp, Hout, Hnone.
Qed.

Lemma no_match_no_title_witness :
  extract (Demo.text ["CC kernel/fork.o"; "make: *** [vmlinux] Error 1"]) = None.
Proof.
  refine (proj1 (no_match_no_title
                   (Demo.text ["CC kernel/fork.o"; "make: *** [vmlinux] Error 1"]) _)).
  intros l p Hl Hp.
  vm_compute in Hl. vm_compute in Hp.
  repeat (destruct Hl as [<-|Hl]; [repeat (destruct Hp as [<-|Hp]; [reflexivity|]); destruct Hp|]).
  destruct Hl.
Defined.

(** C10: [extractRootCause] returns the error value it was given; it fails
    only by dereferencing a nil pointer; for an error that is not a verbose
    one the heap is untouched; and for a verbose one only the title of the
    object pointed to can differ afterwards: its output, and every other
    object, are as before. *)
Theorem extractRootCause_frame (err : error) (h : heap) :
  (extractRootCause err h = None <-> exists p, err = VerboseErrorPtr p /\ h !! p = None)
  /\ forall err' h', extractRootCause err h = Some (err', h') ->
      err' = err
      /\ ((forall p, err <> VerboseErrorPtr p) -> h' = h)
      /\ (forall q, Output <$> h' !! q = Output <$> h !! q)
      /\ (forall q, err <> VerboseErrorPtr q -> h' !! q = h !! q)
      /\ dom h' = dom h.
Proof.
  split.
  - split.
    + destruct err as [|p|msg|format args]; cbn [extractRootCause]; try discriminate.
      destruct (h !! p) as [verr|] eqn:Hp; [|by eauto].
      destruct (extract (Output verr)); discriminate.
    + intros (p & -> & Hp). cbn [extractRootCause]. by rewrite Hp.
  - intros err' h' Hrun.
    destruct err as [|p|msg|format args]; cbn [extractRootCause] in Hrun.
    1, 3, 4: by simplify_eq.
    destruct (h !! p) as [verr|] eqn:Hp; [|discriminate].
    destruct (extract (Output verr)) as [cause|]; simplify_eq.
    + split; [done|]. split; [intros Hne; destruct (Hne p eq_refl)|].
      split; [|split].
      * intros q. destruct (decide (q = p)) as [->|Hq].
        -- by rewrite lookup_insert_eq, Hp.
        -- by rewrite lookup_insert_ne.
      * intros q Hq. rewrite lookup_insert_ne; [done|]. congruence.
      * rewrite dom_insert_L. apply elem_of_dom_2 in Hp.
        apply subseteq_union_1_L. by apply singleton_subseteq_l.
    + done.
Qed.

Lemma extractRootCause_frame_witness :
  extractRootCause (VerboseErrorPtr 7) Demo.failed = Some (VerboseErrorPtr 7, Demo.titled)
  /\ Output <$> Demo.titled !! 7%positive = Output <$> Demo.failed !! 7%positive.
Proof.
  assert (Hrun : extractRootCause (VerboseErrorPtr 7) Demo.failed
                 = Some (VerboseErrorPtr 7, Demo.titled)) by (vm_compute; reflexivity).
  split; [exact Hrun|].
  exact (proj1 (proj2 (proj2 (proj2 (extractRootCause_frame _ _) _ _ Hrun))) 7%positive).
Defined.

(** ** Running the pipelines *)

Section RunLemmas.
Context {W : Type} (hd : @Handler W).

Lemma run_bind {R S : Type} (p : Prog R) (f : R -> Prog S) m :
  run hd (bind p f) m =
    match run hd p m with
    | (tr, Returned r m') =>
        let '(tr', o) := run hd (f r) m' in (tr ++ tr', o)
    | (tr, Panicked) => (tr, Panicked)
    end.
Proof.
  revert m. induction p as [r|A c k IH|A g k IH]; intros m; cbn [bind run].
  - by destruct (run hd (f r) m).
  - destruct (hd A c m) as [a m']. rewrite IH.
    destruct (run hd (k a) m') as [tr [r m''|]]; [|done].
    by destruct (run hd (f r) m'').
  - destruct (g m.1) as [[a h']|]; [|done]. apply IH.
Qed.

Lemma run_calls_only {R : Type} (p : Prog R) m :
  calls_only p -> exists tr r m', run hd p m = (tr, Returned r m').
Proof.
  revert m. induction p as [r|A c k IH|A g k IH]; intros m Hp; cbn [run].
  - eauto.
  - destruct (hd A c m) as [a m'].
    destruct (IH a m' (Hp a)) as (tr & r & m'' & ->). eauto.
  - destruct Hp.
Qed.

(** A deferred call is the last thing a returning body does. *)
Lemma run_defer {A R : Type} (c : Call A) (body : Prog R) m tr r m' :
  run hd body m = (tr, Returned r m') ->
  run hd (defer (call c) body) m =
    (tr ++ [Ev c (hd A c m').1 (hd A c m').2], Returned r (hd A c m').2).
Proof.
  intros Hbody. unfold defer, mbind, Prog_bind.
  rewrite run_bind, Hbody. cbn. by destruct (hd A c m').
Qed.

End RunLemmas.

(** ** Image assembly *)

Section ImageAssembly.
Context `{Platform} {W : Type} (hd : @Handler W) (m : heap * W).
Variables (targetOS targetArch vmType kernelDir userspaceDir : string).
Variables (cmdlineFile sysctlFile image sshkey : string).

(** C3: a target other than linux/amd64, or a machine kind other than qemu
    and gce, is answered with a configuration error by a program that is
    that return and nothing else: no call is made, and the machine is as it
    was. *)
Theorem CreateImage_rejects_before_any_effect :
  (targetOS, targetArch) <> ("linux", "amd64")
    \/ (vmType <> "qemu" /\ vmType <> "gce") ->
  exists msg,
    (msg = "only linux/amd64 is supported"
       \/ msg = "images can be built only for qemu/gce machines")
    /\ CreateImage targetOS targetArch vmType kernelDir userspaceDir
         cmdlineFile sysctlFile image sshkey = Ret (fmt_Errorf msg [])
    /\ isErr (fmt_Errorf msg []) = true
    /\ run hd (CreateImage targetOS targetArch vmType kernelDir userspaceDir
                cmdlineFile sysctlFile image sshkey) m
         = ([], Returned (fmt_Errorf msg []) m).
Proof.
  intros Hbad. unfold CreateImage.
  destruct (String.eqb_spec targetOS "linux") as [->|Hos];
    [destruct (String.eqb_spec targetArch "amd64") as [->|Harch]|]; cbn [negb orb].
  - destruct Hbad as [Hbad|[Hq Hg]]; [done|].
    destruct (String.eqb_spec vmType "qemu") as [->|_]; [done|].
    destruct (String.eqb_spec vmType "gce") as [->|_]; [done|].
    cbn [negb andb]. eexists. split; [by right|]. done.
  - eexists. split; [by left|]. done.
  - eexists. split; [by left|]. done.
Qed.

(** C4: once the staging directory exists, whatever the later calls answer,
    [CreateImage] returns, and the last call it makes is the removal of
    that directory: the trace is the creation, the calls of the body, then
    [os.RemoveAll] of the directory, after which nothing happens. *)
Theorem CreateImage_removes_staging_directory tempDir m1 :
  targetOS = "linux" -> targetArch = "amd64" ->
  vmType = "qemu" \/ vmType = "gce" ->
  hd _ (ioutil_TempDir "" "syz-build") m = ((tempDir, ErrNil), m1) ->
  exists body a m' r,
    run hd (CreateImage targetOS targetArch vmType kernelDir userspaceDir
                cmdlineFile sysctlFile image sshkey) m =
      (Ev (ioutil_TempDir "" "syz-build") (tempDir, ErrNil) m1
         :: body ++ [Ev (os_RemoveAll tempDir) a m'],
       Returned r m').
Proof.
  intros -> -> Hvm Htemp. unfold CreateImage.
  cbn [String.eqb Ascii.eqb Bool.eqb negb orb].
  replace (negb (vmType =? "qemu")%string && negb (vmType =? "gce")%string)
    with false by (by destruct Hvm as [->| ->]).
  cbn [mbind Prog_bind bind call run]. rewrite Htemp. cbn [isErr].
  match goal with
  | |- context [run hd (defer (call ?c) ?b) m1] =>
      assert (Hbody : calls_only b);
      [| destruct (run_calls_only hd b m1 Hbody) as (tr & r & m2 & Hrun);
         rewrite (run_defer hd c b m1 tr r m2 Hrun) ]
  end.
  - repeat (cbn; intros;
            match goal with
            | |- calls_only (if ?b then _ else _) => destruct b
            | |- calls_only (let '(_, _) := ?a in _) => destruct a
            | |- True => exact I
            end).
  - by eexists tr, _, _, r.
Qed.

(** C8 (amended): when the staging directory and the script file are in
    place, [CreateImage] runs the script, once, as a process with the
    staging directory as working directory, the userspace directory and the
    kernel image path as positional arguments, a timeout of one hour, and
    the environment of the caller followed by the three variables; the file
    variables hold [osutil.Abs] of the file arguments, which is empty for
    an empty argument and absolute otherwise.  The process is not
    sandboxed: [CreateImage] never calls [osutil.Sandbox]. *)
Theorem CreateImage_runs_script tempDir environ m1 m2 m3 :
  targetOS = "linux" -> targetArch = "amd64" ->
  vmType = "qemu" \/ vmType = "gce" ->
  let scriptFile := filepath_Join [tempDir; "create.sh"] in
  hd _ (ioutil_TempDir "" "syz-build") m = ((tempDir, ErrNil), m1) ->
  hd _ (osutil_WriteExecFile scriptFile (bytes_of createImageScript)) m1
    = (ErrNil, m2) ->
  hd _ os_Environ m2 = (environ, m3) ->
  let bzImage :=
    filepath_Join [kernelDir; filepath_FromSlash "arch/x86/boot/bzImage"] in
  let cmd := {|
    Path := scriptFile;
    Args := [scriptFile; userspaceDir; bzImage];
    Dir := tempDir;
    Env := environ ++
             [ ("SYZ_VM_TYPE=" ++ vmType)%string;
               ("SYZ_CMDLINE_FILE=" ++ osutil_Abs cmdlineFile)%string;
               ("SYZ_SYSCTL_FILE=" ++ osutil_Abs sysctlFile)%string ] |} in
  let tr := (run hd (CreateImage targetOS targetArch vmType kernelDir userspaceDir
                cmdlineFile sysctlFile image sshkey) m).1 in
  runs tr = [(time.Hour, cmd)]
  /\ Forall (fun e => is_Sandbox e = false) tr
  /\ runs_sandboxed [] tr = false
  /\ osutil_Abs "" = ""
  /\ (filepath_IsAbs osutil_wd = true ->
      (forall a b, filepath_IsAbs a = true -> filepath_IsAbs (filepath_Join [a; b]) = true) ->
      forall path, path <> "" -> filepath_IsAbs (osutil_Abs path) = true).
Proof.
  intros -> -> Hvm scriptFile Htemp Hwrite Henv bzImage cmd.
  assert (Habs : osutil_Abs "" = ""
          /\ (filepath_IsAbs osutil_wd = true ->
              (forall a b, filepath_IsAbs a = true ->
                           filepath_IsAbs (filepath_Join [a; b]) = true) ->
              forall path, path <> "" -> filepath_IsAbs (osutil_Abs path) = true)).
  { split; [reflexivity|]. intros Hwd Hjoin path Hpath. unfold osutil_Abs.
    destruct (String.eqb_spec path ""); [done|].
    destruct (filepath_IsAbs path) eqn:Hp; [done|]. by apply Hjoin. }
  unfold CreateImage. cbn [String.eqb Ascii.eqb Bool.eqb negb orb].
  replace (negb (vmType =? "qemu")%string && negb (vmType =? "gce")%string)
    with false by (by destruct Hvm as [->| ->]).
  subst scriptFile bzImage cmd.
  cbn [mbind Prog_bind bind call run defer mret Prog_ret]. rewrite Htemp.
  cbn [mbind Prog_bind bind call run defer mret Prog_ret isErr snd fst]. rewrite Hwrite.
  cbn [mbind Prog_bind bind call run defer mret Prog_ret isErr snd fst]. rewrite Henv.
  cbn [mbind Prog_bind bind call run defer mret Prog_ret isErr snd fst].
  answer hd. destruct a as [out err].
  destruct (isErr err); cbn;
    repeat (answer hd; try match goal with
                           | |- context [isErr ?e] => destruct (isErr e); cbn
                           end);
    (split; [reflexivity|]); (split; [repeat constructor|]); (split; [reflexivity|]);
    exact Habs.
Qed.

End ImageAssembly.

(** ** Kernel build and clean *)

Section KernelBuild.
Context `{Platform} {W : Type} (hd : @Handler W) (m : heap * W).
Variables (dir compiler : string) (config : list byte).

(** C5 (amended): [Build] returns right after the call that failed, or after
    the compilation.  Only a failed compilation goes through
    [extractRootCause]: the result and the heap are what it makes of the
    error of the run.  A failure to write the configuration file is returned
    wrapped in a new error, "failed to write config file: " followed by the
    original; every other failure (ownership, sandboxing, oldconfig) is
    returned as it is, with the machine as the failed call left it.  [Clean]
    returns the error of its last call, unmodified, and the machine as that
    call left it. *)
Theorem Build_diagnoses_only_compile_failure :
  (let '(tr, o) := run hd (Build dir compiler config) m in
   exists pre e, tr = pre ++ [e] /\
     if is_compile e then
       o = if isErr (ev_error e)
           then onHeap (extractRootCause (ev_error e)) (ev_after e)
           else Returned ErrNil (ev_after e)
     else
       isErr (ev_error e) = true /\
       o = Returned (if is_WriteFile e
                     then fmt_Errorf "failed to write config file: %v" [ev_error e]
                     else ev_error e)
                    (ev_after e))
  /\ (let '(tr, o) := run hd (Clean dir) m in
      exists pre e, tr = pre ++ [e] /\
        o = Returned (ev_error e) (ev_after e) /\
        (is_Sandbox e = true /\ isErr (ev_error e) = true
           \/ exists cmd, run_of e = Some ((10 * time.Minute)%Z, cmd))).
Proof.
  split.
  - unfold Build. cbn. follow hd.
    all: try (destruct (extractRootCause _ _) as [[? ?]|] eqn:?; cbn).
    all: split_last; cbn; unfold onHeap.
    all: repeat match goal with
                | Hb : isErr _ = _ |- _ => rewrite Hb
                | Hx : extractRootCause _ _ = _ |- _ => rewrite Hx
                end; done.
  - unfold Clean. cbn. follow hd.
    all: split_last; cbn; split; [done|]; eauto.
Qed.

(** X8: [Build] and [Clean] run every process sandboxed: each [osutil.Run]
    follows a successful [osutil.Sandbox] of the same command, whatever the
    calls answer. *)
Lemma Build_Clean_sandboxed :
  runs_sandboxed [] (run hd (Build dir compiler config) m).1 = true
  /\ runs_sandboxed [] (run hd (Clean dir) m).1 = true.
Proof.
  split.
  - unfold Build. cbn. follow hd.
    all: try (destruct (extractRootCause _ _) as [[? ?]|] eqn:?; cbn).
    all: repeat match goal with
                | Hb : isErr _ = _ |- _ => rewrite Hb
                end; cbn.
    all: try done.
    all: by repeat (rewrite bool_decide_eq_true_2 by done).
  - unfold Clean. cbn. follow hd.
    all: repeat match goal with
                | Hb : isErr _ = _ |- _ => rewrite Hb
                end; cbn.
    all: try done.
    all: by repeat (rewrite bool_decide_eq_true_2 by done).
Qed.

End KernelBuild.

(** ** Timeouts *)

Section Timeouts.
Context `{Platform} {W : Type} (hd : @Handler W) (m : heap * W).
Variables (dir compiler : string) (config : list byte).
Variables (targetOS targetArch vmType kernelDir userspaceDir : string).
Variables (cmdlineFile sysctlFile image sshkey : string).

Local Open Scope Z_scope.

(** C9: every process is run with the timeout of its step.  The processes
    [Build] runs are, in order and as far as it gets, [make oldconfig] with
    10 minutes and [make bzImage] with 3 hours; [Clean] runs
    [make distclean] with 10 minutes; [CreateImage] runs at most one
    process, with 1 hour.  When no call fails, [Build] runs both its
    processes and [Clean] its one.  The bounds are finite: they fit the
    64-bit nanosecond count of [time.Duration]. *)
Theorem every_run_has_its_timeout :
  (exists n,
     let tr := (run hd (Build dir compiler config) m).1 in
     runs tr `prefix_of`
       [ (10 * time.Minute,
          set_Dir dir (osutil_Command "make"
            ["oldconfig"; ("CC=" ++ compiler)%string]));
         (3 * time.Hour,
          set_Dir dir (osutil_Command "make"
            ["bzImage"; "-j"; strconv_Itoa n; ("CC=" ++ compiler)%string])) ]
     /\ (Forall (fun e => isErr (ev_error e) = false) tr -> length (runs tr) = 2%nat))
  /\ (exists n,
     let tr := (run hd (Clean dir) m).1 in
     runs tr `prefix_of`
       [ (10 * time.Minute,
          set_Dir dir (osutil_Command "make" ["distclean"; "-j"; strconv_Itoa n])) ]
     /\ (Forall (fun e => isErr (ev_error e) = false) tr -> length (runs tr) = 1%nat))
  /\ (exists cmd,
     runs (run hd (CreateImage targetOS targetArch vmType kernelDir userspaceDir
                     cmdlineFile sysctlFile image sshkey) m).1
       `prefix_of` [ (time.Hour, cmd) ])
  /\ (10 * time.Minute = 600 * 10 ^ 9
      /\ time.Hour = 3600 * 10 ^ 9
      /\ 3 * time.Hour = 10800 * 10 ^ 9
      /\ 0 < 10 * time.Minute < time.Hour
      /\ time.Hour < 3 * time.Hour <= time.maxDuration).
Proof.
  split; [|split; [|split]].
  - unfold Build. cbn. follow hd.
    all: try (destruct (extractRootCause _ _) as [[? ?]|] eqn:?; cbn).
    all: first [ exists 0; split; [by eexists|] | eexists; split; [by eexists|] ].
    all: try done.
    all: intros Hok; repeat (apply Forall_cons in Hok as [? Hok]); cbn in *; congruence.
  - unfold Clean. cbn. follow hd.
    all: first [ exists 0; split; [by eexists|] | eexists; split; [by eexists|] ].
    all: try done.
    all: intros Hok; repeat (apply Forall_cons in Hok as [? Hok]); cbn in *; congruence.
  - unfold CreateImage.
    destruct (negb (targetOS =? "linux")%string || negb (targetArch =? "amd64")%string);
      [by exists (osutil_Command "" []); eexists|].
    destruct (negb (vmType =? "qemu")%string && negb (vmType =? "gce")%string);
      [by exists (osutil_Command "" []); eexists|].
    cbn. follow hd.
    all: first [ by exists (osutil_Command "" []); eexists | by eexists; eexists ].
  - vm_compute. repeat split; congruence.
Qed.

End Timeouts.

(** ** The pipelines on the concrete machine *)

Lemma CreateImage_rejects_before_any_effect_witness :
  exists msg,
    (msg = "only linux/amd64 is supported"
       \/ msg = "images can be built only for qemu/gce machines")
    /\ @CreateImage Demo.unix "windows" "amd64" "qemu" "/linux" "/userspace" "" ""
         "/out/image" "/out/key" = Ret (fmt_Errorf msg [])
    /\ isErr (fmt_Errorf msg []) = true
    /\ run (Demo.scripted [] []) (@CreateImage Demo.unix "windows" "amd64" "qemu"
             "/linux" "/userspace" "" "" "/out/image" "/out/key") Demo.boot
         = ([], Returned (fmt_Errorf msg []) Demo.boot).
Proof.
  apply (@CreateImage_rejects_before_any_effect Demo.unix nat).
  left. discriminate.
Defined.

Lemma CreateImage_removes_staging_directory_witness :
  exists body a m' r,
    run (Demo.scripted [ErrNil; ErrNil; ErrNil; ErrNil; OtherError "no space left on device"] [])
        (@CreateImage Demo.unix "linux" "amd64" "gce" "/linux" "/userspace" "" ""
           "/out/image" "/out/key") Demo.boot
    = (Ev (ioutil_TempDir "" "syz-build") ("/tmp/syz-build042", ErrNil) (∅, 1%nat)
         :: body ++ [Ev (os_RemoveAll "/tmp/syz-build042") a m'],
       Returned r m').
Proof.
  apply (@CreateImage_removes_staging_directory Demo.unix nat).
  - reflexivity.
  - reflexivity.
  - by right.
  - reflexivity.
Defined.

Lemma CreateImage_runs_script_witness :
  runs (run (Demo.scripted [] [])
          (@CreateImage Demo.unix "linux" "amd64" "qemu" "/linux" "/userspace" ""
             "rel/sysctl.conf" "/out/image" "/out/key") Demo.boot).1
  = [ (time.Hour,
       {| Path := "/tmp/syz-build042/create.sh";
          Args := ["/tmp/syz-build042/create.sh"; "/userspace";
                   "/linux/arch/x86/boot/bzImage"];
          Dir := "/tmp/syz-build042";
          Env := ["PATH=/usr/bin"; "HOME=/root"; "SYZ_VM_TYPE=qemu";
                  "SYZ_CMDLINE_FILE=";
                  "SYZ_SYSCTL_FILE=/syzkaller/rel/sysctl.conf"] |}) ]
  /\ @filepath_IsAbs Demo.unix (@osutil_Abs Demo.unix "rel/sysctl.conf") = true.
Proof.
  destruct (@CreateImage_runs_script Demo.unix nat (Demo.scripted [] []) Demo.boot
              "linux" "amd64" "qemu" "/linux" "/userspace" "" "rel/sysctl.conf"
              "/out/image" "/out/key"
              "/tmp/syz-build042" ["PATH=/usr/bin"; "HOME=/root"]
              (∅, 1%nat) (∅, 2%nat) (∅, 3%nat)
              eq_refl eq_refl (or_introl eq_refl) eq_refl eq_refl eq_refl)
    as (Hruns & _ & _ & _ & Habs).
  split; [exact Hruns|].
  apply Habs.
  - reflexivity.
  - intros a b Ha. destruct a as [|c a]; [discriminate Ha|]. exact Ha.
  - discriminate.
Defined.

(** C8 as stated fails: the script is run, and no call to [osutil.Sandbox]
    comes before it, or anywhere. *)
Lemma CreateImage_script_not_sandboxed :
  let tr := (run (Demo.scripted [] [])
               (@CreateImage Demo.unix "linux" "amd64" "qemu" "/linux" "/userspace"
                  "" "" "/out/image" "/out/key") Demo.boot).1 in
  map fst (runs tr) = [time.Hour]
  /\ existsb is_Sandbox tr = false
  /\ runs_sandboxed [] tr = false.
Proof. vm_compute. repeat split. Qed.

(** C5 as stated fails: the failure to write the configuration file comes
    back wrapped in a new error, not as it was. *)
Lemma Build_config_write_failure_wrapped :
  let failure := OtherError "no space left on device" in
  let config := bytes_of "CONFIG_KCOV=y" in
  let '(tr, o) := run (Demo.scripted [failure] [])
                      (@Build Demo.unix "/linux" "gcc" config) Demo.boot in
  tr = [Ev (osutil_WriteFile "/linux/.config" config) failure (∅, 1%nat)]
  /\ o = Returned (fmt_Errorf "failed to write config file: %v" [failure]) (∅, 1%nat)
  /\ o <> Returned failure (∅, 1%nat).
Proof. cbn. repeat split. discriminate. Qed.

(** A failed compilation on the concrete machine: the verbose error comes
    back with the compiler's line as its title. *)
Example Build_compile_failure_titled :
  (run (Demo.scripted [ErrNil; ErrNil; ErrNil; ErrNil; ErrNil; ErrNil; VerboseErrorPtr 7]
          (Demo.text ["CC a.o"; "a.c:1: error: x"]))
       (@Build Demo.unix "/linux" "gcc" []) Demo.boot).2
  = Returned (VerboseErrorPtr 7) (Demo.titled, 7%nat).
Proof. vm_compute. reflexivity. Qed.

Lemma every_run_has_its_timeout_witness :
  map fst (runs (run (Demo.scripted [] []) (@Build Demo.unix "/linux" "gcc" []) Demo.boot).1)
    = [ (10 * time.Minute)%Z; (3 * time.Hour)%Z ]
  /\ length (runs (run (Demo.scripted [] []) (@Build Demo.unix "/linux" "gcc" []) Demo.boot).1)
     = 2%nat.
Proof.
  destruct (@every_run_has_its_timeout Demo.unix nat (Demo.scripted [] []) Demo.boot
              "/linux" "gcc" [] "linux" "amd64" "qemu" "/linux" "/userspace" "" ""
              "/out/image" "/out/key") as [(n & Hprefix & Hlen) _].
  split; [vm_compute; reflexivity|].
  apply Hlen. vm_compute. repeat constructor.
Defined.

(** * Further properties *)

(** ** Slices *)

Section Slices.
Implicit Types (b s x sub : list byte) (sep : byte).

Lemma HasPrefix_spec b sub :
  bytes.HasPrefix b sub = true <-> exists post, b = sub ++ post.
Proof.
  revert b. induction sub as [|c sub IH]; intros b.
  - split; [intros _; by exists b|]. by destruct b.
  - destruct b as [|d b]; cbn [bytes.HasPrefix app].
    + split; [discriminate|]. intros (post & Hb). discriminate.
    + rewrite andb_true_iff, IH. split.
      * intros (Heq & post & ->). apply Byte.byte_dec_bl in Heq as ->. by exists post.
      * intros (post & Hb). injection Hb as -> ->.
        split; [by apply Byte.byte_dec_lb | by exists post].
Qed.

Lemma Contains_spec b sub :
  bytes.Contains b sub = true <-> exists pre post, b = pre ++ sub ++ post.
Proof.
  induction b as [|c b IH]; cbn [bytes.Contains].
  - rewrite orb_false_r, HasPrefix_spec. split.
    + intros (post & Hb). by exists [], post.
    + intros (pre & post & Hb). destruct pre; [by exists post | discriminate].
  - rewrite orb_true_iff, HasPrefix_spec.
    fold (bytes.Contains b sub). rewrite IH. split.
    + intros [(post & Hb)|(pre & post & ->)].
      * by exists [], post.
      * by exists (c :: pre), post.
    + intros (pre & post & Hb). destruct pre as [|d pre].
      * left. by exists post.
      * right. injection Hb as -> ->. by exists pre, post.
Qed.

Lemma Split_cons c s sep :
  bytes.Split (c :: s) sep =
    if Byte.eqb c sep then [] :: bytes.Split s sep
    else match bytes.Split s sep with
         | piece :: pieces => (c :: piece) :: pieces
         | [] => [[c]]
         end.
Proof. reflexivity. Qed.

Lemma Split_not_nil s sep : bytes.Split s sep <> [].
Proof.
  destruct s as [|c s]; [done|]. rewrite Split_cons.
  destruct (Byte.eqb c sep); [done|]. by destruct (bytes.Split s sep).
Qed.

Lemma Split_app x s sep :
  bytes.Split (x ++ sep :: s) sep = bytes.Split x sep ++ bytes.Split s sep.
Proof.
  induction x as [|c x IH]; cbn [app].
  - rewrite Split_cons. by rewrite (Byte.byte_dec_lb (eq_refl sep)).
  - rewrite !Split_cons, IH. destruct (Byte.eqb c sep); [done|].
    pose proof (Split_not_nil x sep). by destruct (bytes.Split x sep).
Qed.

Lemma Split_no_sep s sep :
  Forall (fun piece => ~ In sep piece) (bytes.Split s sep).
Proof.
  induction s as [|c s IH]; [constructor; [intros []|constructor]|].
  rewrite Split_cons. destruct (Byte.eqb c sep) eqn:Hc.
  - constructor; [intros []|done].
  - destruct (bytes.Split s sep) as [|piece pieces].
    + apply Byte.eqb_false in Hc. constructor; [|constructor]. intros [->|[]]. done.
    + apply Forall_cons in IH as [Hp Hps]. constructor; [|done].
      apply Byte.eqb_false in Hc. intros [->|Hin]; [done|]. by apply Hp.
Qed.

End Slices.

(** ** More on the extractor *)

(** X1: the lines the scan walks over are the newline-free pieces of the
    output, all of them: there is at least one, none contains a newline, and
    joined by newlines they give the output back. *)
Theorem lines_partition_output (output : list byte) :
  bytes.Split output newline <> []
  /\ Forall (fun line => ~ In newline line) (bytes.Split output newline)
  /\ bytes_Join (bytes.Split output newline) newline = output.
Proof.
  split; [apply Split_not_nil|]. split; [apply Split_no_sep|].
  induction output as [|c s IH]; [done|].
  rewrite Split_cons. pose proof (Split_not_nil s newline) as Hne.
  destruct (Byte.eqb c newline) eqn:Hc.
  - apply Byte.byte_dec_bl in Hc as ->.
    destruct (bytes.Split s newline) as [|q qs]; [done|].
    cbn [bytes_Join app]. cbn [bytes_Join] in IH. by rewrite IH.
  - destruct (bytes.Split s newline) as [|piece pieces]; [done|].
    destruct pieces as [|q qs]; cbn [bytes_Join app] in IH |- *; by rewrite IH.
Qed.

Lemma scanLines_result lines cause l :
  scanLines lines cause = Some l ->
  cause = Some l
  \/ (In l lines /\ (strongLine l = true \/ weakLine l = true)).
Proof.
  revert cause. induction lines as [|x xs IH]; intros cause Hscan; cbn [scanLines] in Hscan.
  - by left.
  - apply IH in Hscan as [Hx|(Hin & Hm)]; [|right; split; [by right | done]].
    rewrite scanPatterns_spec in Hx.
    fold (strongLine x) in Hx. fold (weakLine x) in Hx.
    destruct (strongLine x) eqn:Hs.
    { injection Hx as ->. right. split; [by left | by left]. }
    destruct cause as [c|]; [by left|].
    destruct (weakLine x) eqn:Hw; [|discriminate].
    injection Hx as ->. right. split; [by left | by right].
Qed.

Lemma matchesAny_pattern patterns strength line :
  matchesAny patterns strength line = true ->
  exists p, In p patterns /\ weak p = strength /\ bytes.Contains line (pattern p) = true.
Proof.
  unfold matchesAny. intros Hex. apply existsb_exists in Hex as (p & Hp & Hm).
  apply andb_true_iff in Hm as [Hw Hc]. apply Bool.eqb_prop in Hw. eauto.
Qed.

Lemma pattern_matchesAny patterns line p :
  In p patterns -> bytes.Contains line (pattern p) = true ->
  matchesAny patterns (weak p) line = true.
Proof.
  intros Hp Hc. unfold matchesAny. apply existsb_exists. exists p.
  split; [done|]. by rewrite Hc, Bool.eqb_reflx.
Qed.

(** X2: a title is never made up.  The line [extract] selects is one of the
    lines of the output, it has no newline in it, and one of the five
    patterns occurs in it: the line is some bytes, the pattern, some
    bytes. *)
Theorem extract_selects_matching_line (output l : list byte) :
  extract output = Some l ->
  In l (bytes.Split output newline)
  /\ ~ In newline l
  /\ exists p pre post, In p buildFailureCauses /\ l = pre ++ pattern p ++ post.
Proof.
  unfold extract. fold newline. intros Hscan.
  apply scanLines_result in Hscan as [?|(Hin & Hm)]; [discriminate|].
  split; [done|]. split.
  - by apply (proj1 (List.Forall_forall _ _) (Split_no_sep output newline)).
  - assert (exists strength, matchesAny buildFailureCauses strength l = true)
      as (strength & Hany) by (destruct Hm; eauto).
    apply matchesAny_pattern in Hany as (p & Hp & _ & Hc).
    apply Contains_spec in Hc as (pre & post & ->). eauto.
Qed.

Lemma extract_selects_matching_line_witness :
  In (bytes_of "a.c:1: error: x")
     (bytes.Split (Demo.text ["CC a.o"; "a.c:1: error: x"; "make: *** Error 2"]) newline)
  /\ ~ In newline (bytes_of "a.c:1: error: x").
Proof.
  destruct (extract_selects_matching_line
              (Demo.text ["CC a.o"; "a.c:1: error: x"; "make: *** Error 2"])
              (bytes_of "a.c:1: error: x")) as (Hin & Hnl & _).
  - vm_compute. reflexivity.
  - split; [exact Hin | exact Hnl].
Defined.

(** X3: [extract] selects a line exactly when some line of the output
    contains some pattern of the table. *)
Theorem extract_some_iff (output : list byte) :
  is_Some (extract output) <->
  exists l p, In l (bytes.Split output newline) /\ In p buildFailureCauses
              /\ bytes.Contains l (pattern p) = true.
Proof.
  split.
  - intros [l Hl]. unfold extract in Hl. fold newline in Hl.
    apply scanLines_result in Hl as [?|(Hin & Hm)]; [discriminate|].
    assert (exists strength, matchesAny buildFailureCauses strength l = true)
      as (strength & Hany) by (destruct Hm; eauto).
    apply matchesAny_pattern in Hany as (p & Hp & _ & Hc). eauto.
  - intros (l & p & Hl & Hp & Hc). unfold extract. fold newline.
    set (lines := bytes.Split output newline) in *.
    assert (Hdec : forall x, {strongLine x = true} + {strongLine x <> true}).
    { intros x. destruct (strongLine x); [by left | by right]. }
    destruct (List.Exists_dec (fun x => strongLine x = true) lines Hdec) as [Hex|Hno].
    + destruct (scanLines_strong_result lines None Hex) as (x & -> & _). by eexists.
    + assert (Hall : Forall (fun x => strongLine x = false) lines).
      { apply List.Forall_forall. intros x Hx. destruct (strongLine x) eqn:E; [|done].
        exfalso. apply Hno. apply List.Exists_exists. eauto. }
      rewrite scanLines_fallback by done.
      destruct (List.find weakLine lines) as [x|] eqn:Hfind; [by eexists|].
      pose proof (List.find_none _ _ Hfind l Hl) as Hweak.
      pose proof (proj1 (List.Forall_forall _ _) Hall l Hl) as Hstrong.
      cbv beta in Hstrong.
      pose proof (pattern_matchesAny buildFailureCauses l p Hp Hc) as Hany.
      destruct (weak p); unfold weakLine, strongLine in *; congruence.
Qed.

(** X4: the last entry of the table never decides.  A line that contains
    "collect2: error: " contains ": error: ", which is tested first, so the
    inner loop gives the same candidate without the last entry, and a selected
    line always contains one of the first four patterns. *)
Theorem last_entry_never_decides :
  (forall line cause,
     scanPatterns line buildFailureCauses cause
     = scanPatterns line (removelast buildFailureCauses) cause)
  /\ (forall output l,
       extract output = Some l ->
       exists p, In p (removelast buildFailureCauses)
                 /\ bytes.Contains l (pattern p) = true).
Proof.
  assert (Hweak : forall line, strongLine line = false ->
            matchesAny (removelast buildFailureCauses) true line = weakLine line).
  { intros line Hs. unfold weakLine, matchesAny, buildFailureCauses.
    cbn [removelast existsb weak pattern Bool.eqb andb orb].
    destruct (bytes.Contains line (bytes_of "collect2: error: ")) eqn:Hc.
    - apply collect2_line_is_strong in Hc. congruence.
    - by rewrite !orb_false_r. }
  split.
  - intros line cause. rewrite !scanPatterns_spec.
    change (matchesAny (removelast buildFailureCauses) false line) with (strongLine line).
    fold (strongLine line). fold (weakLine line).
    destruct (strongLine line) eqn:Hs; [done|]. by rewrite Hweak.
  - intros output l Hl. unfold extract in Hl. fold newline in Hl.
    apply scanLines_result in Hl as [?|(_ & Hm)]; [discriminate|].
    destruct (strongLine l) eqn:Hs.
    + change (strongLine l) with (matchesAny (removelast buildFailureCauses) false l) in Hs.
      apply matchesAny_pattern in Hs as (p & Hp & _ & Hc). eauto.
    + destruct Hm as [?|Hw]; [discriminate|]. rewrite <- Hweak in Hw by done.
      apply matchesAny_pattern in Hw as (p & Hp & _ & Hc). eauto.
Qed.

(** X5: the scan is incremental.  The result for an output followed by a
    newline and more output is the scan of the additional lines, started from
    the result for the first part; so a trailing newline changes nothing, and
    neither do further lines without a strong match once a line is
    selected. *)
Theorem extract_incremental (output more : list byte) :
  extract (output ++ newline :: more)
    = scanLines (bytes.Split more newline) (extract output)
  /\ extract (output ++ [newline]) = extract output
  /\ (forall l, extract output = Some l ->
       Forall (fun x => strongLine x = false) (bytes.Split more newline) ->
       extract (output ++ newline :: more) = Some l).
Proof.
  assert (Hinc : forall more', extract (output ++ newline :: more')
                               = scanLines (bytes.Split more' newline) (extract output)).
  { intros more'. unfold extract. fold newline. by rewrite Split_app, scanLines_app. }
  split; [apply Hinc|]. split.
  - rewrite Hinc. cbn [bytes.Split scanLines].
    rewrite scanPatterns_spec. by destruct (extract output).
  - intros l Hl Hmore. rewrite Hinc, Hl. by apply scanLines_keep.
Qed.

Lemma extract_incremental_witness :
  extract (Demo.text ["a.c:1: error: x"] ++ newline :: Demo.text ["make: *** Error 2"; ""])
    = Some (bytes_of "a.c:1: error: x").
Proof.
  refine (proj2 (proj2 (extract_incremental (Demo.text ["a.c:1: error: x"])
                          (Demo.text ["make: *** Error 2"; ""]))) _ _ _).
  - vm_compute. reflexivity.
  - vm_compute. repeat constructor.
Defined.

(** ** More on [extractRootCause] *)

Lemma extractRootCause_same err (h : heap) e h' :
  extractRootCause err h = Some (e, h') -> e = err.
Proof.
  destruct err as [|p|msg|format args]; cbn [extractRootCause]; try by intros [= <- <-].
  destruct (h !! p) as [verr|]; [|discriminate].
  by destruct (extract (Output verr)); intros [= <- <-].
Qed.

Lemma extractRootCause_None err (h : heap) :
  extractRootCause err h = None <-> exists p, err = VerboseErrorPtr p /\ h !! p = None.
Proof.
  split.
  - destruct err as [|p|msg|format args]; cbn [extractRootCause]; try discriminate.
    destruct (h !! p) as [verr|] eqn:Hp; [|by eauto].
    destruct (extract (Output verr)); discriminate.
  - intros (p & -> & Hp). cbn [extractRootCause]. by rewrite Hp.
Qed.

(** What [extractRootCause] does with a verbose error whose output has a
    strong line. *)
Lemma extractRootCause_strong (h : heap) p verr pre line post :
  h !! p = Some verr ->
  bytes.Split (Output verr) newline = pre ++ line :: post ->
  strongLine line = true ->
  Forall (fun l => strongLine l = false) post ->
  extractRootCause (VerboseErrorPtr p) h
    = Some (VerboseErrorPtr p,
            <[p := {| Title := string_of line; Output := Output verr |}]> h).
Proof.
  intros Hp Hsplit Hs Hpost. cbn [extractRootCause]. rewrite Hp.
  unfold extract. fold newline. rewrite Hsplit.
  by rewrite scanLines_last_strong.
Qed.

(** X6: diagnosing twice is diagnosing once.  Running [extractRootCause] on
    its own result, in the heap it left, changes nothing more. *)
Theorem extractRootCause_idempotent (err : error) (h : heap) e h' :
  extractRootCause err h = Some (e, h') ->
  extractRootCause e h' = Some (e, h').
Proof.
  destruct err as [|p|msg|format args]; cbn [extractRootCause]; try by intros [= <- <-].
  destruct (h !! p) as [verr|] eqn:Hp; [|discriminate].
  destruct (extract (Output verr)) as [cause|] eqn:Hcause; intros [= <- <-];
    cbn [extractRootCause].
  - rewrite lookup_insert_eq. cbn [Output]. rewrite Hcause.
    by rewrite insert_insert_eq.
  - by rewrite Hp, Hcause.
Qed.

Lemma extractRootCause_idempotent_witness :
  extractRootCause (VerboseErrorPtr 7) Demo.titled = Some (VerboseErrorPtr 7, Demo.titled).
Proof.
  apply (extractRootCause_idempotent (VerboseErrorPtr 7) Demo.failed).
  vm_compute. reflexivity.
Defined.

(** X7: the title [extractRootCause] assigns is a line of that error's own
    output.  Either no line is selected and the heap is as it was, or the
    object pointed to gets as title the text of one line of its output, text
    that converts back to exactly the bytes of that line. *)
Theorem extractRootCause_title_is_line (h : heap) p verr e h' :
  h !! p = Some verr ->
  extractRootCause (VerboseErrorPtr p) h = Some (e, h') ->
  (extract (Output verr) = None /\ h' = h)
  \/ exists l,
       extract (Output verr) = Some l
       /\ In l (bytes.Split (Output verr) newline)
       /\ h' = <[p := {| Title := string_of l; Output := Output verr |}]> h
       /\ bytes_of (string_of l) = l.
Proof.
  intros Hp. cbn [extractRootCause]. rewrite Hp.
  destruct (extract (Output verr)) as [l|] eqn:Hl; intros [= <- <-]; [|by left].
  right. exists l. split; [done|]. split; [|split; [done|]].
  - unfold extract in Hl. fold newline in Hl.
    by apply scanLines_result in Hl as [?|(Hin & _)].
  - apply list_byte_of_string_of_list_byte.
Qed.

Lemma extractRootCause_title_is_line_witness :
  (extract (Demo.text ["CC a.o"; "a.c:1: error: x"]) = None /\ Demo.titled = Demo.failed)
  \/ exists l,
       extract (Demo.text ["CC a.o"; "a.c:1: error: x"]) = Some l
       /\ In l (bytes.Split (Demo.text ["CC a.o"; "a.c:1: error: x"]) newline)
       /\ Demo.titled
          = <[7%positive := {| Title := string_of l;
                               Output := Demo.text ["CC a.o"; "a.c:1: error: x"] |}]>
              Demo.failed
       /\ bytes_of (string_of l) = l.
Proof.
  apply (extractRootCause_title_is_line Demo.failed 7%positive
           {| Title := "failed to run make";
              Output := Demo.text ["CC a.o"; "a.c:1: error: x"] |}
           (VerboseErrorPtr 7) Demo.titled).
  - vm_compute. reflexivity.
  - vm_compute. reflexivity.
Defined.

(** ** More on the kernel build *)

Section KernelBuildCalls.
Context `{Platform} {W : Type} (hd : @Handler W) (m : heap * W).
Variables (dir compiler : string) (config : list byte).

(** X9: the calls of [Build] and of [Clean] are a fixed sequence, cut where a
    call fails.  [Build] writes the configuration file, hands it to the
    sandbox user, and only then prepares and runs [make oldconfig], asks for
    the number of CPUs, prepares and runs [make bzImage]; [Clean] asks for the
    number of CPUs, prepares and runs [make distclean].  Both sandbox with
    both restrictions on.  At least one call is made, and every call but the
    last answered nil: nothing is called after a failure. *)
Theorem Build_Clean_call_sequence :
  (exists n,
     let configFile := filepath_Join [dir; ".config"] in
     let oldconfig := osutil_Command "make" ["oldconfig"; ("CC=" ++ compiler)%string] in
     let bzImage :=
       osutil_Command "make" ["bzImage"; "-j"; strconv_Itoa n; ("CC=" ++ compiler)%string] in
     let tr := (run hd (Build dir compiler config) m).1 in
     map action tr `prefix_of`
       [ Act (osutil_WriteFile configFile config);
         Act (osutil_SandboxChown configFile);
         Act (osutil_Sandbox oldconfig true true);
         Act (osutil_Run (10 * time.Minute)%Z (set_Dir dir oldconfig));
         Act runtime_NumCPU;
         Act (osutil_Sandbox bzImage true true);
         Act (osutil_Run (3 * time.Hour)%Z (set_Dir dir bzImage)) ]
     /\ tr <> [] /\ Forall quiet (removelast tr))
  /\ (exists n,
       let distclean := osutil_Command "make" ["distclean"; "-j"; strconv_Itoa n] in
       let tr := (run hd (Clean dir) m).1 in
       map action tr `prefix_of`
         [ Act runtime_NumCPU;
           Act (osutil_Sandbox distclean true true);
           Act (osutil_Run (10 * time.Minute)%Z (set_Dir dir distclean)) ]
       /\ tr <> [] /\ Forall quiet (removelast tr)).
Proof.
  split.
  - unfold Build. cbn. follow hd.
    all: try (destruct (extractRootCause _ _) as [[? ?]|] eqn:?; cbn).
    all: first [ exists 0%Z; split; [by eexists|] | eexists; split; [by eexists|] ].
    all: split; [done|]; cbn [removelast]; repeat constructor; done.
  - unfold Clean. cbn. follow hd.
    all: first [ exists 0%Z; split; [by eexists|] | eexists; split; [by eexists|] ].
    all: split; [done|]; cbn [removelast]; repeat constructor; done.
Qed.

(** X10: no error is swallowed.  [Build] returns nil exactly when every call
    it made answered nil, and so does [Clean]. *)
Theorem Build_Clean_nil_iff_all_quiet :
  (let '(tr, o) := run hd (Build dir compiler config) m in
   (exists final, o = Returned ErrNil final) <-> Forall quiet tr)
  /\ (let '(tr, o) := run hd (Clean dir) m in
      (exists final, o = Returned ErrNil final) <-> Forall quiet tr).
Proof.
  split.
  - unfold Build. cbn. follow hd.
    all: try (destruct (extractRootCause _ _) as [[? ?]|] eqn:Hx; cbn;
              [apply extractRootCause_same in Hx as ->|]).
    all: split;
      [ intros [final Ho]; simplify_eq; repeat constructor; done
      | intros Hq; repeat (apply Forall_cons in Hq as [? Hq]);
        unfold quiet in *; cbn in *; first [congruence | by eexists] ].
  - unfold Clean. cbn. follow hd.
    all: split;
      [ intros [final Ho]; simplify_eq; repeat constructor; done
      | intros Hq; repeat (apply Forall_cons in Hq as [? Hq]);
        unfold quiet in *; cbn in *;
        first [ congruence
              | match goal with
                | |- context [Returned ?e _] => destruct e
                end; first [discriminate | by eexists] ] ].
Qed.

End KernelBuildCalls.

(** ** The pipelines as a whole *)

Section Termination.
Context `{Platform} {W : Type} (hd : @Handler W) (m : heap * W).
Variables (dir compiler : string) (config : list byte).
Variables (targetOS targetArch vmType kernelDir userspaceDir : string).
Variables (cmdlineFile sysctlFile image sshkey : string).

(** X11: the one way a pipeline can fail to return.  [Build] panics exactly
    when the compilation fails with a verbose error that is a nil pointer,
    which [extractRootCause] dereferences; [Clean] and [CreateImage] always
    return. *)
Theorem pipelines_return_unless_nil_verbose_error :
  (let '(tr, o) := run hd (Build dir compiler config) m in
   o = Panicked <->
   exists e p, last tr = Some e /\ is_compile e = true
               /\ ev_error e = VerboseErrorPtr p /\ (ev_after e).1 !! p = None)
  /\ (run hd (Clean dir) m).2 <> Panicked
  /\ (run hd (CreateImage targetOS targetArch vmType kernelDir userspaceDir
                cmdlineFile sysctlFile image sshkey) m).2 <> Panicked.
Proof.
  split; [|split].
  - unfold Build. cbn. follow hd.
    all: try (destruct (extractRootCause _ _) as [[? ?]|] eqn:Hx; cbn).
    all: split;
      [ intros Ho; try discriminate Ho
      | intros (e' & p & Hlast & Hc & He & Hp); cbn in Hlast; simplify_eq; cbn in *;
        simplify_eq; cbn in *; try done ].
    + rewrite Hp in Hx. discriminate Hx.
    + apply extractRootCause_None in Hx as (p & -> & Hp).
      eexists _, p. by repeat split.
  - unfold Clean. cbn. follow hd. all: done.
  - unfold CreateImage.
    destruct (negb (targetOS =? "linux")%string || negb (targetArch =? "amd64")%string);
      [done|].
    destruct (negb (vmType =? "qemu")%string && negb (vmType =? "gce")%string); [done|].
    cbn. follow hd. all: done.
Qed.

(** X12: from the compiler's line to the caller.  When the compilation fails
    with a verbose error whose output has a line with a strong match, [Build]
    returns that same error and its title is now the last such line; the
    output and the rest of the machine are as the failed run left them. *)
Theorem Build_titles_compile_failure e p verr pre line post :
  let r := run hd (Build dir compiler config) m in
  last r.1 = Some e ->
  is_compile e = true ->
  ev_error e = VerboseErrorPtr p ->
  (ev_after e).1 !! p = Some verr ->
  bytes.Split (Output verr) newline = pre ++ line :: post ->
  strongLine line = true ->
  Forall (fun l => strongLine l = false) post ->
  r.2 = Returned (VerboseErrorPtr p)
          (<[p := {| Title := string_of line; Output := Output verr |}]> (ev_after e).1,
           (ev_after e).2).
Proof.
  unfold Build. cbn. follow hd.
  all: try (destruct (extractRootCause _ _) as [[? ?]|] eqn:Hx; cbn).
  all: intros Hlast Hc He Hp Hsplit Hs Hpost.
  all: cbn in Hlast; simplify_eq; cbn in Hc, He, Hp; simplify_eq.
  all: try match goal with
           | Hb : isErr (VerboseErrorPtr _) = false |- _ => discriminate Hb
           end.
  all: rewrite (extractRootCause_strong _ _ _ _ _ _ Hp Hsplit Hs Hpost) in Hx.
  all: by simplify_eq.
Qed.

End Termination.

Lemma Build_titles_compile_failure_witness :
  (run (Demo.scripted [ErrNil; ErrNil; ErrNil; ErrNil; ErrNil; ErrNil; VerboseErrorPtr 7]
          (Demo.text ["CC a.o"; "a.c:1: error: x"]))
       (@Build Demo.unix "/linux" "gcc" []) Demo.boot).2
  = Returned (VerboseErrorPtr 7) (Demo.titled, 7%nat).
Proof.
  refine (@Build_titles_compile_failure Demo.unix nat _ Demo.boot "/linux" "gcc" []
            (Ev (osutil_Run (3 * time.Hour)%Z
                   (set_Dir "/linux" (osutil_Command "make"
                      ["bzImage"; "-j"; "4"; "CC=gcc"])))
                (Demo.text ["CC a.o"; "a.c:1: error: x"], VerboseErrorPtr 7)
                (Demo.failed, 7%nat))
            7%positive
            {| Title := "failed to run make";
               Output := Demo.text ["CC a.o"; "a.c:1: error: x"] |}
            [bytes_of "CC a.o"] (bytes_of "a.c:1: error: x") [] _ _ _ _ _ _ _).
  - vm_compute. reflexivity.
  - reflexivity.
  - reflexivity.
  - vm_compute. reflexivity.
  - vm_compute. reflexivity.
  - vm_compute. reflexivity.
  - constructor.
Defined.

(** ** More on image assembly *)

Section ImageAssemblyCalls.
Context `{Platform} {W : Type} (hd : @Handler W) (m : heap * W).
Variables (targetOS targetArch vmType kernelDir userspaceDir : string).
Variables (cmdlineFile sysctlFile image sshkey : string).

(** X13: for an accepted target, the calls of [CreateImage] before the
    deferred removal are a fixed sequence, cut where a call fails: create the
    staging directory, write the script into it, read the environment, run
    the script, copy the disk image, copy the key, restrict the key to mode
    0600.  At least one call is made and every call but the last answered
    nil, so nothing is copied unless the script succeeded, and the key is not
    chmodded unless both copies succeeded.  The removal of the staging
    directory is the only call after them. *)
Theorem CreateImage_call_sequence :
  targetOS = "linux" -> targetArch = "amd64" ->
  vmType = "qemu" \/ vmType = "gce" ->
  exists tempDir environ,
    let scriptFile := filepath_Join [tempDir; "create.sh"] in
    let bzImage :=
      filepath_Join [kernelDir; filepath_FromSlash "arch/x86/boot/bzImage"] in
    let cmd := {|
      Path := scriptFile;
      Args := [scriptFile; userspaceDir; bzImage];
      Dir := tempDir;
      Env := environ ++
               [ ("SYZ_VM_TYPE=" ++ vmType)%string;
                 ("SYZ_CMDLINE_FILE=" ++ osutil_Abs cmdlineFile)%string;
                 ("SYZ_SYSCTL_FILE=" ++ osutil_Abs sysctlFile)%string ] |} in
    let tr := (run hd (CreateImage targetOS targetArch vmType kernelDir userspaceDir
                         cmdlineFile sysctlFile image sshkey) m).1 in
    map action (body_of tr) `prefix_of`
      [ Act (ioutil_TempDir "" "syz-build");
        Act (osutil_WriteExecFile scriptFile (bytes_of createImageScript));
        Act os_Environ;
        Act (osutil_Run time.Hour cmd);
        Act (osutil_CopyFile (filepath_Join [tempDir; "disk.raw"]) image);
        Act (osutil_CopyFile (filepath_Join [tempDir; "key"]) sshkey);
        Act (os_Chmod sshkey mode_0600) ]
    /\ body_of tr <> []
    /\ Forall quiet (removelast (body_of tr))
    /\ (tr = body_of tr
        \/ exists a m', tr = body_of tr ++ [Ev (os_RemoveAll tempDir) a m']).
Proof.
  intros -> -> Hvm. unfold CreateImage.
  cbn [String.eqb Ascii.eqb Bool.eqb negb orb].
  replace (negb (vmType =? "qemu")%string && negb (vmType =? "gce")%string)
    with false by (by destruct Hvm as [->| ->]).
  cbn. follow hd.
  all: first [ exists "", []; split; [by eexists|]
             | eexists; exists []; split; [by eexists|]
             | eexists; eexists; split; [by eexists|] ].
  all: split; [done|]; split; [cbn; repeat constructor; done|].
  all: first [ by left | right; by eexists _, _ ].
Qed.

(** X14: what [CreateImage] returns is decided by the last call before the
    removal, and by nothing the removal answers.  A failure to write the
    script comes back as "failed to write script file: ..." and a failed run
    as "image build failed: ..."; any other failure comes back as it is; the
    result is nil exactly when every call before the removal answered nil.
    The machine is left as the last call, removal included, left it. *)
Theorem CreateImage_returns_error_of_last_call :
  targetOS = "linux" -> targetArch = "amd64" ->
  vmType = "qemu" \/ vmType = "gce" ->
  let r := run hd (CreateImage targetOS targetArch vmType kernelDir userspaceDir
                     cmdlineFile sysctlFile image sshkey) m in
  exists e elast,
    last (body_of r.1) = Some e
    /\ last r.1 = Some elast
    /\ r.2 = Returned (image_error e) (ev_after elast)
    /\ (image_error e = ErrNil <-> Forall quiet (body_of r.1)).
Proof.
  intros -> -> Hvm. unfold CreateImage.
  cbn [String.eqb Ascii.eqb Bool.eqb negb orb].
  replace (negb (vmType =? "qemu")%string && negb (vmType =? "gce")%string)
    with false by (by destruct Hvm as [->| ->]).
  cbn. follow hd.
  all: nil_answers.
  all: eexists _, _; split; [reflexivity|]; split; [reflexivity|]; split; [reflexivity|].
  all: unfold image_error, quiet; cbn; split;
    [ intros Hnil; subst; first [discriminate | repeat constructor]
    | intros Hq; repeat (apply Forall_cons in Hq as [? Hq]); cbn in *;
      first [congruence | done] ].
Qed.

Lemma run_Sys_not_nil {A R : Type} (c : Call A) (k : A -> Prog R) :
  (run hd (Sys c k) m).1 <> [].
Proof. cbn [run]. destruct (hd A c m) as [a m']. by destruct (run hd (k a) m'). Qed.

(** X15: the checks on the arguments are exact and ordered.  A target other
    than linux/amd64 is refused with the message about the target whatever
    the machine kind is; an accepted target with a machine kind other than
    qemu and gce is refused with the message about machines; and
    [CreateImage] makes no call at all exactly when it refuses. *)
Theorem CreateImage_refuses_exactly_bad_arguments :
  let prog := CreateImage targetOS targetArch vmType kernelDir userspaceDir
                cmdlineFile sysctlFile image sshkey in
  let bad_target := (targetOS, targetArch) <> ("linux", "amd64") in
  let bad_machine := vmType <> "qemu" /\ vmType <> "gce" in
  (bad_target -> prog = Ret (fmt_Errorf "only linux/amd64 is supported" []))
  /\ (~ bad_target -> bad_machine ->
      prog = Ret (fmt_Errorf "images can be built only for qemu/gce machines" []))
  /\ ((run hd prog m).1 = [] <-> bad_target \/ bad_machine).
Proof.
  cbv zeta. unfold CreateImage.
  destruct (String.eqb_spec targetOS "linux") as [->|Hos];
    [destruct (String.eqb_spec targetArch "amd64") as [->|Harch]|]; cbn [negb orb].
  - destruct (String.eqb_spec vmType "qemu") as [->|Hq];
      [|destruct (String.eqb_spec vmType "gce") as [->|Hg]]; cbn [negb andb].
    + split; [done|]. split; [by intros _ [? _]|].
      cbn [mbind Prog_bind bind call]. split; [|by intros [?|[? _]]].
      intros Hnil. by apply run_Sys_not_nil in Hnil.
    + split; [done|]. split; [by intros _ [_ ?]|].
      cbn [mbind Prog_bind bind call]. split; [|by intros [?|[_ ?]]].
      intros Hnil. by apply run_Sys_not_nil in Hnil.
    + split; [done|]. split; [done|]. split; [by right|done].
  - split; [done|]. split; [intros Hok; destruct Hok; congruence|].
    split; [left; congruence | done].
  - split; [done|]. split; [intros Hok; destruct Hok; congruence|].
    split; [left; congruence | done].
Qed.

End ImageAssemblyCalls.

Lemma CreateImage_call_sequence_witness :
  body_of (run (Demo.scripted [ErrNil; ErrNil; ErrNil; ErrNil;
                               OtherError "no space left on device"] [])
             (@CreateImage Demo.unix "linux" "amd64" "gce" "/linux"
                "/userspace" "" "" "/out/image" "/out/key")
             Demo.boot).1 <> [].
Proof.
  destruct (@CreateImage_call_sequence Demo.unix nat
              (Demo.scripted [ErrNil; ErrNil; ErrNil; ErrNil;
                              OtherError "no space left on device"] [])
              Demo.boot "linux" "amd64" "gce" "/linux" "/userspace" "" ""
              "/out/image" "/out/key" eq_refl eq_refl (or_intror eq_refl))
    as (tempDir & environ & _ & Hne & _).
  exact Hne.
Defined.

Lemma CreateImage_returns_error_of_last_call_witness :
  exists e elast,
    last (body_of (run (Demo.scripted [ErrNil; ErrNil; ErrNil; OtherError "exit status 1";
                                       ErrNil; OtherError "device busy"] [])
                     (@CreateImage Demo.unix "linux" "amd64" "qemu" "/linux" "/userspace"
                        "" "" "/out/image" "/out/key") Demo.boot).1) = Some e
    /\ last (run (Demo.scripted [ErrNil; ErrNil; ErrNil; OtherError "exit status 1";
                                 ErrNil; OtherError "device busy"] [])
               (@CreateImage Demo.unix "linux" "amd64" "qemu" "/linux" "/userspace"
                  "" "" "/out/image" "/out/key") Demo.boot).1 = Some elast
    /\ (run (Demo.scripted [ErrNil; ErrNil; ErrNil; OtherError "exit status 1";
                            ErrNil; OtherError "device busy"] [])
          (@CreateImage Demo.unix "linux" "amd64" "qemu" "/linux" "/userspace"
             "" "" "/out/image" "/out/key") Demo.boot).2
       = Returned (image_error e) (ev_after elast)
    /\ (image_error e = ErrNil <->
        Forall quiet
          (body_of (run (Demo.scripted [ErrNil; ErrNil; ErrNil; OtherError "exit status 1";
                                        ErrNil; OtherError "device busy"] [])
                      (@CreateImage Demo.unix "linux" "amd64" "qemu" "/linux" "/userspace"
                         "" "" "/out/image" "/out/key") Demo.boot).1)).
Proof.
  apply (@CreateImage_returns_error_of_last_call Demo.unix nat).
  - reflexivity.
  - reflexivity.
  - by left.
Defined.

(** ** The scan in closed form *)

Lemma scanLines_closed_form (lines : list (list byte)) (cause : option (list byte)) :
  scanLines lines cause =
    match last (List.filter strongLine lines) with
    | Some l => Some l
    | None =>
        match cause with
        | Some c => Some c
        | None => List.find weakLine lines
        end
    end.
Proof.
  revert cause. induction lines as [|x xs IH]; intros cause;
    cbn [scanLines List.filter List.find].
  - by destruct cause.
  - rewrite IH, scanPatterns_spec. fold (strongLine x). fold (weakLine x).
    destruct (strongLine x) eqn:Hs.
    + rewrite last_cons. by destruct (last (List.filter strongLine xs)).
    + destruct (last (List.filter strongLine xs)); [done|].
      destruct cause; [done|]. by destruct (weakLine x).
Qed.

(** X16: the two loops in closed form.  [extract] returns the last line with
    a strong match if there is one, and otherwise the first line with a weak
    match, if there is one. *)
Theorem extract_closed_form (output : list byte) :
  extract output =
    match last (List.filter strongLine (bytes.Split output newline)) with
    | Some l => Some l
    | None => List.find weakLine (bytes.Split output newline)
    end.
Proof. unfold extract. fold newline. by rewrite scanLines_closed_form. Qed.
